(** * The Metropolis sampling loop of [MCMC_example.ipynb]

    The notebook computes with binary64 values: Rocq's primitive [float],
    whose operations are specified by [SpecFloat] at precision 53.  The
    positions of the chain are Python floats.  A density value is a Python
    number or a NumPy [float64] scalar, and the two divide differently: a
    quotient with a NumPy operand follows IEEE 754 (a zero divisor gives an
    infinity or a NaN, with a warning), a quotient of two Python numbers
    raises [ZeroDivisionError] on a zero divisor.  Every comparison with a
    NaN is false.

    The cells embedded here are cell 8 ([target_dist]) and cell 9 (the
    sampling loop). *)

From Stdlib Require Import ZArith List Bool Lia.
From Stdlib Require Import Floats.
Import ListNotations.

Local Open Scope float_scope.

(** ** Python values and control flow *)

(** A Python call either returns a value or raises; an exception raised
    inside the loop body leaves the loop at once. *)
Inductive result (E A : Type) : Type :=
| Val (a : A)
| Raise (e : E).

Arguments Val {E A} a.
Arguments Raise {E A} e.

Definition bind {E A B : Type} (m : result E A) (k : A -> result E B) : result E B :=
  match m with
  | Val a => k a
  | Raise e => Raise e
  end.

Notation "x <- m ;; k" := (bind m (fun x => k))
  (at level 61, m at next level, right associativity).

(** A number as a density returns it: a Python [float] (or an [int], taken
    at its float value), or a [numpy.float64] scalar. *)
Inductive number : Type :=
| PyNum (v : float)
| NpNum (v : float).

Definition value (n : number) : float :=
  match n with
  | PyNum v | NpNum v => v
  end.

Module Py.

(** The builtin [min(a, b)] keeps [a] unless [b < a]; with a NaN second
    argument the comparison is false and [a] is returned. *)
Definition min (a b : float) : float := if b <? a then b else a.

(** [a / b].  Between two Python numbers a zero divisor, of either sign,
    raises; as soon as one operand is a NumPy scalar the quotient is NumPy's,
    which never raises. *)
Definition truediv {E : Type} (ZeroDivisionError : E) (a b : number)
  : result E number :=
  match a, b with
  | PyNum x, PyNum y =>
      if y =? 0 then Raise ZeroDivisionError else Val (PyNum (x / y))
  | _, _ => Val (NpNum (value a / value b))
  end.

End Py.

Module NumPy.

(** [np.random.uniform(low, high)] is [low + (high - low) * random_sample()],
    the raw draw [r] being a double in the half-open interval [0, 1). *)
Definition uniform (low high r : float) : float := low + (high - low) * r.

(** The raw draws the generator can deliver. *)
Definition unit_draw (r : float) : Prop := (0 <=? r) = true /\ (r <? 1) = true.

(** [np.pi]. *)
Definition pi : float := 0x1.921fb54442d18p+1.

End NumPy.

(** ** Cell 8: the target density of the notebook *)

Module Cell8.
Section Libm.

(** Python exception objects, [OverflowError] among them. *)
Variable exn : Type.
Variable OverflowError : exn.

(** [np.sin], [np.exp] and [pow] are the C library's; they are parameters
    here. *)
Variables np_sin np_exp : float -> float.
Variable c_pow : float -> float -> float.

(** [x**2] on a Python float, as CPython's [float_pow] computes it: a NaN,
    an infinity and a zero are answered without the library, a negative
    base is negated first (the exponent is even), and an infinite result
    of [pow] on a finite base raises. *)
Definition float_sq (x : float) : result exn float :=
  if is_nan x then Val x
  else if is_infinity x then Val infinity
  else if x =? 0 then Val 0
  else if abs x =? 1 then Val 1
  else let z := c_pow (abs x) 2 in
       if is_infinity z then Raise OverflowError else Val z.

(** [s**2] on a NumPy scalar is the library's [pow(s, 2.0)]; it does not
    raise. *)
Definition np_sq (s : float) : float := c_pow s 2.

(** [lambda x: np.sin(x)*np.sin(2*x)**2*(1/np.sqrt(2*np.pi)*np.exp(-x**2/2))]
    at a Python float [x]; the value is a NumPy scalar. *)
Definition target_dist (x : float) : result exn number :=
  sq <- float_sq x ;;
  Val (NpNum (np_sin x * np_sq (np_sin (2 * x))
              * (1 / sqrt (2 * NumPy.pi) * np_exp (- sq / 2)))).

End Libm.
End Cell8.

(** ** Cell 9: the sampling loop *)

(** The two variables the loop mutates. *)
Record chain : Type := mkChain {
  x_current : float;
  x_target : list float
}.

Module Sampler.
Section Loop.

(** Python exception objects, [ZeroDivisionError] among them. *)
Variable exn : Type.
Variable ZeroDivisionError : exn.

(** The density the loop calls; a Python callable may raise. *)
Variable target_dist : float -> result exn number.

Variable scale : float.

(** [x_current-np.random.uniform(low=-scale/2, high=scale/2)] *)
Definition delta (r : float) : float := NumPy.uniform (- scale / 2) (scale / 2) r.

Definition x_proposal (st : chain) (r : float) : float := x_current st - delta r.

(** [min(1,target_dist(x_proposal)/target_dist(x_current))] on the two
    density values: the division may raise. *)
Definition acceptance (target_proposal target_current : number) : result exn float :=
  ratio <- Py.truediv ZeroDivisionError target_proposal target_current ;;
  Val (Py.min 1 (value ratio)).

(** The test of the [if]: the numerator is evaluated first. *)
Definition accepts (st : chain) (r u : float) : result exn bool :=
  tp <- target_dist (x_proposal st r) ;;
  tc <- target_dist (x_current st) ;;
  a <- acceptance tp tc ;;
  Val (u <? a).

(** The body of the [if]:
    [x_target.append(x_proposal)], [x_current = x_proposal]. *)
Definition moved (st : chain) (r : float) : chain :=
  {| x_current := x_proposal st r;
     x_target := x_target st ++ [x_proposal st r] |}.

(** One pass through the loop body, with the raw draw [r] behind the
    proposal and the draw [u] of [np.random.uniform()]. *)
Definition step (st : chain) (r u : float) : result exn chain :=
  b <- accepts st r u ;;
  Val (if b : bool then moved st r else st).

(** The [for] loop over the draws of its iterations.  When the body raises,
    the loop stops with the variables as the last completed iteration left
    them. *)
Fixpoint run (draws : list (float * float)) (st : chain) : chain * option exn :=
  match draws with
  | [] => (st, None)
  | (r, u) :: rest =>
      match step st r u with
      | Val st' => run rest st'
      | Raise e => (st, Some e)
      end
  end.

End Loop.
End Sampler.

Import Sampler.

(** The records the loop appends, told from the positions alone: the
    proposals of the accepted iterations, in order, up to the first
    iteration that raises. *)
Fixpoint accepted_proposals {exn : Type} (ZeroDivisionError : exn)
    (target_dist : float -> result exn number)
    (scale : float) (draws : list (float * float)) (x : float) : list float :=
  match draws with
  | [] => []
  | (r, u) :: rest =>
      let here := {| x_current := x; x_target := [] |} in
      match accepts exn ZeroDivisionError target_dist scale here r u with
      | Val true =>
          x_proposal scale here r
            :: accepted_proposals ZeroDivisionError target_dist scale rest
                 (x_proposal scale here r)
      | Val false => accepted_proposals ZeroDivisionError target_dist scale rest x
      | Raise _ => []
      end
  end.

(** The value of [min(1, tp/tc)] once the division has returned. *)
Definition clipped (tp tc : float) : float := Py.min 1 (tp / tc).

Arguments clipped tp tc : simpl never.

(** Whether [tp / tc] returns: it raises only between two Python numbers
    with a zero divisor. *)
Definition divides (tp tc : number) : bool :=
  match tp, tc with
  | PyNum _, PyNum y => negb (y =? 0)
  | _, _ => true
  end.

(** A density value that is a finite, non-negative number; Python holds
    [-0.0 >= 0]. *)
Definition finite_nonneg (t : float) : bool :=
  match classify t with
  | PNormal | PSubn | PZero | NZero => true
  | _ => false
  end.

(** A density value that is finite and is not the negative zero. *)
Definition tame (t : float) : bool :=
  match classify t with
  | NaN | PInf | NInf | NZero => false
  | _ => true
  end.

(** A density value that is a number and is not infinite. *)
Definition finite_value (t : float) : bool :=
  match classify t with
  | NaN | PInf | NInf => false
  | _ => true
  end.

(** A position at which the density evaluates to a positive number. *)
Definition in_support {exn : Type} (target_dist : float -> result exn number)
    (x : float) : Prop :=
  exists v, target_dist x = Val v /\ (0 <? value v) = true.

(** The same density at the mirrored position: the value negated, an
    exception unchanged. *)
Definition opposite {exn : Type} (m : result exn number) : result exn number :=
  match m with
  | Val (PyNum v) => Val (PyNum (- v))
  | Val (NpNum v) => Val (NpNum (- v))
  | Raise e => Raise e
  end.

(** A density written in Python arithmetic returns Python numbers; one that
    goes through NumPy returns NumPy scalars.  Neither raises. *)
Definition python {exn : Type} (f : float -> float) : float -> result exn number :=
  fun x => Val (PyNum (f x)).

Definition numpy {exn : Type} (f : float -> float) : float -> result exn number :=
  fun x => Val (NpNum (f x)).

(** ** Densities and exceptions used in the examples *)

Module Examples.

(** The Python exceptions that occur, and an error class named as the
    specification names its own; nothing in the notebook constructs the
    last. *)
Inductive py_exn : Type :=
| ZeroDivisionError
| OverflowError
| ValueError
| TargetEvaluationError (position : float).

(** [lambda x: 1.0 if 0 <= x <= 1 else 0.0] with [python], and
    [lambda x: np.float64(0 <= x <= 1)] with [numpy]: zero outside an
    interval. *)
Definition box (x : float) : float :=
  if (0 <=? x) && (x <=? 1) then 1 else 0.

(** [lambda x: x*(1-x)], negative outside the unit interval; with
    [python]. *)
Definition parabola (x : float) : float := x * (1 - x).

(** [lambda x: np.sqrt(x)], a NaN at negative positions; with [numpy]. *)
Definition root (x : float) : float := sqrt x.

(** [lambda x: np.float64(x)*0.0], a zero that carries the sign of the
    position; with [numpy]. *)
Definition signed_zero (x : float) : float := x * 0.

(** [lambda x: 1], with [python]. *)
Definition one (x : float) : float := 1.

(** A density that raises a domain error for positions above 10 and
    returns the Python number 1 elsewhere. *)
Definition bounded_above (x : float) : result py_exn number :=
  if 10 <? x then Raise ValueError else Val (PyNum 1).

(** The largest raw draw, [1 - 2^-53]. *)
Definition top_draw : float := 0x1.fffffffffffffp-1.

(** Chains in mid-run. *)
Definition outside : chain := {| x_current := 2; x_target := [] |}.
Definition near_edge : chain := {| x_current := 0.9375; x_target := [0.9375] |}.
Definition near_zero : chain := {| x_current := 0.0625; x_target := [] |}.
Definition at_ten : chain := {| x_current := 10; x_target := [] |}.
Definition at_minus_one : chain := {| x_current := -1; x_target := [] |}.

(** Stand-ins for the C library in the examples: the identity for the sine,
    the constant 1 for the exponential, the product for the square. *)
Definition lib_sin (y : float) : float := y.
Definition lib_exp (y : float) : float := 1.
Definition lib_pow (a b : float) : float := a * a.

End Examples.

Module Cell9.

(** [scale = 0.2] *)
Definition scale : float := 0x1.999999999999ap-3.

(** [x_target = []], [x_current = 0]: the int 0, which the arithmetic of
    the loop and of the density takes at its float value. *)
Definition initial : chain := {| x_current := 0; x_target := [] |}.

(** The notebook's density, for given library functions. *)
Definition target (np_sin np_exp : float -> float) (c_pow : float -> float -> float)
  : float -> result Examples.py_exn number :=
  Cell8.target_dist Examples.py_exn Examples.OverflowError np_sin np_exp c_pow.

(** The cell as written, for given library functions and the draws of
    its iterations. *)
Definition loop (np_sin np_exp : float -> float) (c_pow : float -> float -> float)
    (draws : list (float * float)) : chain * option Examples.py_exn :=
  run Examples.py_exn Examples.ZeroDivisionError (target np_sin np_exp c_pow)
    scale draws initial.

End Cell9.

(** ** Magnitudes of binary64 values *)

Module Magnitude.

Local Open Scope Z_scope.

(** A value of sign [s] whose magnitude is at most that of the binary64
    number [B * 2^eB]. *)
Definition below (s : bool) (B : positive) (eB : Z) (x : spec_float) : Prop :=
  match x with
  | S754_zero s' => s' = s
  | S754_finite s' m e => s' = s /\ e <= eB /\ Z.pos m <= Z.pos B * 2 ^ (eB - e)
  | _ => False
  end.

(** The mantissa of 0.2 (at exponent -55) and of 0.1 (at exponent -56). *)
Definition M : positive := 7205759403792794.

(** The binary64 values from [-0.1] up to, and without, [0.1]. *)
Definition in_window (z : spec_float) : Prop :=
  SFleb (S754_finite true M (-56)) z = true
  /\ SFltb z (S754_finite false M (-56)) = true.

End Magnitude.

(** ** Binary64 facts used by the loop *)

Module F64.

Lemma Prim2SF_one : Prim2SF 1 = S754_finite false 4503599627370496 (-52).
Proof. reflexivity. Qed.

Lemma Prim2SF_zero : Prim2SF 0 = S754_zero false.
Proof. reflexivity. Qed.

(** Swapping the operands of a comparison reverses its outcome. *)
Lemma SFcompare_swap (x y : spec_float) :
  SFcompare y x = option_map CompOpp (SFcompare x y).
Proof.
  destruct x as [sx|sx| |sx mx ex], y as [sy|sy| |sy my ey]; simpl;
    try reflexivity;
    try (destruct sx; reflexivity);
    try (destruct sy; reflexivity);
    try (destruct sx, sy; reflexivity).
  f_equal.
  rewrite (Z.compare_antisym ey ex), !Pos.compare_cont_spec; simpl.
  rewrite (Pos.compare_antisym my mx).
  destruct sx, sy; simpl; try reflexivity;
    destruct (ey ?= ex)%Z; simpl; try reflexivity;
    destruct (my ?= mx)%positive; reflexivity.
Qed.

Lemma ltb_leb (x y : float) : (x <? y) = true -> (x <=? y) = true.
Proof.
  rewrite ltb_spec, leb_spec. unfold SFltb, SFleb.
  destruct (SFcompare (Prim2SF x) (Prim2SF y)) as [[ | | ]|]; congruence.
Qed.

Lemma leb_not_ltb (x y : float) : (x <=? y) = true -> (y <? x) = false.
Proof.
  rewrite ltb_spec, leb_spec. unfold SFltb, SFleb.
  rewrite (SFcompare_swap (Prim2SF x) (Prim2SF y)).
  destruct (SFcompare (Prim2SF x) (Prim2SF y)) as [[ | | ]|]; simpl; congruence.
Qed.

Lemma ltb_not_nan (x y : float) : (x <? y) = true -> (x =? x) = true.
Proof.
  rewrite ltb_spec, eqb_spec. unfold SFltb, SFeqb.
  destruct (Prim2SF x) as [sx|sx| |sx mx ex]; simpl.
  - reflexivity.
  - destruct sx; reflexivity.
  - discriminate.
  - intros _. rewrite Z.compare_refl, Pos.compare_cont_refl.
    destruct sx; reflexivity.
Qed.

(** *** Rounding keeps the sign *)

Lemma shr_1_nonneg (mrs : shr_record) :
  (0 <= shr_m mrs)%Z -> (0 <= shr_m (shr_1 mrs))%Z.
Proof.
  destruct mrs as [m r s]; simpl.
  destruct m as [|p|p]; [| destruct p |]; simpl; lia.
Qed.

Lemma iter_shr_1_nonneg (p : positive) :
  forall mrs, (0 <= shr_m mrs)%Z -> (0 <= shr_m (iter_pos shr_1 p mrs))%Z.
Proof.
  induction p as [p IH|p IH|]; simpl; intros mrs H.
  - apply IH, IH, shr_1_nonneg, H.
  - apply IH, IH, H.
  - apply shr_1_nonneg, H.
Qed.

Lemma shr_fexp_nonneg (m e : Z) (l : location) :
  (0 <= m)%Z -> (0 <= shr_m (fst (shr_fexp prec emax m e l)))%Z.
Proof.
  intros H. unfold shr_fexp, shr.
  assert (H0 : (0 <= shr_m (shr_record_of_loc m l))%Z)
    by (destruct l as [|[ | | ]]; exact H).
  destruct (fexp prec emax (Zdigits2 m + e) - e)%Z; simpl; auto.
  apply iter_shr_1_nonneg, H0.
Qed.

Lemma round_nearest_even_nonneg (m : Z) (l : location) :
  (0 <= m)%Z -> (0 <= round_nearest_even m l)%Z.
Proof.
  intros H. destruct l as [|[ | | ]]; simpl; try lia.
  destruct (Z.even m); lia.
Qed.

(** The sign bit of a value, none for a NaN. *)
Definition sign_of (x : spec_float) : option bool :=
  match x with
  | S754_nan => None
  | S754_zero s | S754_infinity s | S754_finite s _ _ => Some s
  end.

Lemma binary_round_aux_sign (s : bool) (m e : Z) (l : location) :
  (0 <= m)%Z -> sign_of (binary_round_aux prec emax s m e l) = Some s.
Proof.
  intros H. unfold binary_round_aux.
  pose proof (shr_fexp_nonneg m e l H) as H1.
  destruct (shr_fexp prec emax m e l) as [mrs1 e1]; simpl in H1.
  pose proof (shr_fexp_nonneg _ e1 loc_Exact
                (round_nearest_even_nonneg _ (loc_of_shr_record mrs1) H1)) as H2.
  destruct (shr_fexp prec emax _ e1 loc_Exact) as [mrs2 e2]; simpl in H2.
  destruct (shr_m mrs2) as [|q|q]; try reflexivity.
  - destruct (e2 <=? emax - prec)%Z; reflexivity.
  - lia.
Qed.

(** The quotient of two finite values is a number, and carries the
    exclusive or of their signs. *)
Lemma SFdiv_finite_sign (sx : bool) (mx : positive) (ex : Z)
    (sy : bool) (my : positive) (ey : Z) :
  sign_of (SF64div (S754_finite sx mx ex) (S754_finite sy my ey))
  = Some (xorb sx sy).
Proof.
  unfold SF64div, SFdiv, SFdiv_core_binary.
  set (m' := match _ with Z0 => Z.pos mx | Zpos _ => _ | Zneg _ => 0%Z end).
  assert (Hm : (0 <= m')%Z).
  { subst m'. destruct (_ - _ - _)%Z; try lia.
    rewrite Z.shiftl_mul_pow2 by lia. apply Z.mul_nonneg_nonneg; lia. }
  pose proof (Z_div_mod m' (Z.pos my) eq_refl) as Hd.
  destruct (Z.div_eucl m' (Z.pos my)) as [q r].
  assert (Hq : (0 <= q)%Z) by nia.
  apply binary_round_aux_sign, Hq.
Qed.

(** *** A value divided by itself *)

Lemma SFdiv_self (s : bool) (m : positive) (e : Z) :
  SF64div (S754_finite s m e) (S754_finite s m e) = Prim2SF 1.
Proof.
  unfold SF64div, SFdiv, SFdiv_core_binary.
  replace (Zdigits2 (Z.pos m) + e - (Zdigits2 (Z.pos m) + e))%Z with 0%Z by lia.
  rewrite Z.sub_diag.
  change (Z.min (fexp prec emax 0) 0) with (-53)%Z.
  change (0 - -53)%Z with 53%Z. cbv iota.
  pose proof (Z_div_mod (Z.shiftl (Z.pos m) 53) (Z.pos m) eq_refl) as Hd.
  destruct (Z.div_eucl (Z.shiftl (Z.pos m) 53) (Z.pos m)) as [q r].
  rewrite Z.shiftl_mul_pow2 in Hd by lia.
  assert (Hq : q = (2 ^ 53)%Z) by nia.
  assert (Hr : r = 0%Z) by nia.
  subst q r. rewrite xorb_nilpotent.
  unfold new_location. destruct (Z.even (Z.pos m)); reflexivity.
Qed.

End F64.

(** ** The value of the acceptance probability *)

Section AcceptanceFacts.

Ltac to_spec :=
  rewrite ?ltb_spec, ?leb_spec, ?eqb_spec, ?classify_spec in *;
  rewrite ?F64.Prim2SF_one, ?F64.Prim2SF_zero in *.

(** Case analysis on the class and sign of a binary64 value. *)
Ltac cases x :=
  destruct (Prim2SF x) as [[|]|[|]| |[|] ? ?];
  simpl F64.sign_of in *; try discriminate.

Lemma min_one_nan (x : float) : Prim2SF x = S754_nan -> Py.min 1 x = 1.
Proof.
  intros H. unfold Py.min. rewrite ltb_spec, H. reflexivity.
Qed.

Lemma min_one_signed (x : float) :
  F64.sign_of (Prim2SF x) = Some true -> Py.min 1 x = x.
Proof.
  intros H. unfold Py.min. to_spec. cases x; reflexivity.
Qed.

(** No draw of [0, 1) lies below a value whose sign bit is set. *)
Lemma draw_not_below_signed (u x : float) :
  (0 <=? u) = true -> F64.sign_of (Prim2SF x) = Some true -> (u <? x) = false.
Proof.
  intros Hu Hx. to_spec. cases x; cases u; reflexivity.
Qed.

Lemma draw_not_below_zero (u x : float) :
  (0 <=? u) = true -> (x =? 0) = true -> (u <? x) = false.
Proof.
  intros Hu Hx. to_spec. cases x; cases u; reflexivity.
Qed.

Lemma clipped_le_one (tp tc : float) : (clipped tp tc <=? 1) = true.
Proof.
  unfold clipped, Py.min.
  destruct (tp / tc <? 1) eqn:E.
  - apply F64.ltb_leb, E.
  - reflexivity.
Qed.

Lemma clipped_not_nan (tp tc : float) :
  (clipped tp tc =? clipped tp tc) = true.
Proof.
  unfold clipped, Py.min.
  destruct (tp / tc <? 1) eqn:E.
  - apply F64.ltb_not_nan with (y := 1), E.
  - reflexivity.
Qed.

(** 0/0 is a NaN, and [min(1, nan)] is 1. *)
Lemma clipped_zero_zero (tp tc : float) :
  (tp =? 0) = true -> (tc =? 0) = true -> clipped tp tc = 1.
Proof.
  intros Hp Hc. apply min_one_nan. rewrite div_spec. to_spec.
  cases tp; cases tc; reflexivity.
Qed.

(** A zero numerator over a positive denominator is a zero. *)
Lemma clipped_zero_pos (tp tc : float) :
  (tp =? 0) = true -> (0 <? tc) = true ->
  clipped tp tc = tp / tc /\ (tp / tc =? 0) = true.
Proof.
  intros Hp Hc. unfold clipped, Py.min.
  assert (H : exists s, Prim2SF (tp / tc) = S754_zero s).
  { rewrite div_spec. to_spec. cases tp; cases tc; eexists; reflexivity. }
  destruct H as [s H]. to_spec. rewrite H. split; reflexivity.
Qed.

(** A value over itself is 1, or a NaN when the value is zero, infinite or
    a NaN; [min] returns 1 either way. *)
Lemma clipped_same (c : float) : clipped c c = 1.
Proof.
  unfold clipped.
  destruct (Prim2SF c) as [s|s| |s m e] eqn:E;
    try (apply min_one_nan; rewrite div_spec, E; reflexivity).
  replace (c / c) with 1; [reflexivity|].
  apply Prim2SF_inj. rewrite div_spec, E. symmetry. apply F64.SFdiv_self.
Qed.

Lemma signless_nonneg (x : spec_float) :
  F64.sign_of x = Some false -> SFleb (S754_zero false) x = true.
Proof.
  destruct x as [s|s| |s m e]; simpl; try discriminate;
    intros [= ->]; reflexivity.
Qed.

(** With non-negative densities the clipped probability is not negative,
    unless the density at the current position is the negative zero. *)
Lemma clipped_nonneg (tp tc : float) :
  (0 <=? tp) = true -> (0 <=? tc) = true -> classify tc <> NZero ->
  (0 <=? clipped tp tc) = true.
Proof.
  intros Hp Hc Hz. unfold clipped, Py.min.
  destruct (tp / tc <? 1) eqn:E; [|reflexivity].
  to_spec. rewrite div_spec in *.
  cases tp; cases tc; try reflexivity; try (exfalso; apply Hz; reflexivity).
  apply signless_nonneg, F64.SFdiv_finite_sign.
Qed.

Ltac split_class :=
  unfold finite_nonneg, tame in *; rewrite ?classify_spec in *;
  unfold SF64classify, SFclassify in *.

(** Over a finite non-negative density that is not the negative zero, a
    finite negative density gives a quotient with the sign bit set. *)
Lemma negative_ratio_signed (tp tc : float) :
  tame tp = true -> finite_nonneg tp = false ->
  tame tc = true -> finite_nonneg tc = true ->
  F64.sign_of (Prim2SF (tp / tc)) = Some true.
Proof.
  intros Tp Np Tc Nc. rewrite div_spec. split_class.
  cases tp; cases tc;
    try reflexivity;
    try (exact (F64.SFdiv_finite_sign true _ _ false _ _));
    repeat match goal with
           | H : context [if ?c then _ else _] |- _ => destruct c
           end; discriminate.
Qed.

(** The clipped test fails for a tame negative density. *)
Lemma negative_density_rejected (tp tc u : float) :
  tame tp = true -> finite_nonneg tp = false ->
  tame tc = true -> finite_nonneg tc = true ->
  (0 <=? u) = true -> (u <? clipped tp tc) = false.
Proof.
  intros Tp Np Tc Nc Hu.
  pose proof (negative_ratio_signed tp tc Tp Np Tc Nc) as Hs.
  unfold clipped. rewrite (min_one_signed _ Hs).
  apply draw_not_below_signed; assumption.
Qed.

(** A NaN density at the proposal makes the quotient a NaN. *)
Lemma clipped_nan_proposal (tp tc : float) :
  (tp =? tp) = false -> clipped tp tc = 1.
Proof.
  intros H. apply min_one_nan. rewrite div_spec. to_spec.
  destruct (Prim2SF tp) as [sp|sp| |sp mp ep].
  - discriminate.
  - destruct sp; discriminate.
  - reflexivity.
  - exfalso. revert H. unfold SFeqb; simpl.
    rewrite Z.compare_refl, Pos.compare_cont_refl. destruct sp; discriminate.
Qed.

End AcceptanceFacts.

(** ** The division of the two densities *)

Section DivisionFacts.

Variable exn : Type.
Variable ZeroDivisionError : exn.

Local Abbreviation acceptance := (acceptance exn ZeroDivisionError).

(** The division returns the IEEE quotient or raises, by the kinds of its
    operands. *)
Lemma acceptance_cases (tp tc : number) :
  acceptance tp tc
  = if divides tp tc then Val (clipped (value tp) (value tc))
    else Raise ZeroDivisionError.
Proof.
  unfold Sampler.acceptance, Py.truediv, divides.
  destruct tp as [x|x], tc as [y|y]; try reflexivity.
  destruct (y =? 0); reflexivity.
Qed.

Lemma positive_not_zero (x : float) : (0 <? x) = true -> (x =? 0) = false.
Proof.
  rewrite ltb_spec, eqb_spec, F64.Prim2SF_zero.
  destruct (Prim2SF x) as [[|]|[|]| |[|] m e]; try discriminate; reflexivity.
Qed.

(** A positive divisor never raises. *)
Lemma divides_positive (tp tc : number) :
  (0 <? value tc) = true -> divides tp tc = true.
Proof.
  intros H. destruct tp as [x|x], tc as [y|y]; try reflexivity.
  simpl in *. rewrite (positive_not_zero y H). reflexivity.
Qed.

(** The division raises only between two Python numbers, on a zero. *)
Lemma divides_false (tp tc : number) :
  divides tp tc = false ->
  exists x y, tp = PyNum x /\ tc = PyNum y /\ (y =? 0) = true.
Proof.
  destruct tp as [x|x], tc as [y|y]; try discriminate.
  simpl. intros H. exists x, y. repeat split.
  destruct (y =? 0); [reflexivity | discriminate].
Qed.

Lemma acceptance_returns (tp tc : number) (a : float) :
  acceptance tp tc = Val a ->
  divides tp tc = true /\ a = clipped (value tp) (value tc).
Proof.
  rewrite acceptance_cases. destruct (divides tp tc); [|discriminate].
  intros [= <-]. split; reflexivity.
Qed.

End DivisionFacts.

(** ** One iteration *)

Section StepFacts.

Variable exn : Type.
Variable ZeroDivisionError : exn.
Variable target_dist : float -> result exn number.
Variable scale : float.

Local Abbreviation acceptance := (acceptance exn ZeroDivisionError).
Local Abbreviation accepts := (accepts exn ZeroDivisionError target_dist scale).
Local Abbreviation step := (step exn ZeroDivisionError target_dist scale).
Local Abbreviation x_proposal := (x_proposal scale).
Local Abbreviation moved := (moved scale).

Lemma accepts_val (st : chain) (r u : float) (tp tc : number) :
  target_dist (x_proposal st r) = Val tp ->
  target_dist (x_current st) = Val tc ->
  accepts st r u
  = if divides tp tc then Val (u <? clipped (value tp) (value tc))
    else Raise ZeroDivisionError.
Proof.
  intros Hp Hc. unfold Sampler.accepts. rewrite Hp; simpl. rewrite Hc; simpl.
  rewrite acceptance_cases. destruct (divides tp tc); reflexivity.
Qed.

Lemma step_accepted (st : chain) (r u : float) :
  accepts st r u = Val true -> step st r u = Val (moved st r).
Proof. intros H. unfold Sampler.step. rewrite H. reflexivity. Qed.

Lemma step_rejected (st : chain) (r u : float) :
  accepts st r u = Val false -> step st r u = Val st.
Proof. intros H. unfold Sampler.step. rewrite H. reflexivity. Qed.

Lemma step_raised (st : chain) (r u : float) (e : exn) :
  accepts st r u = Raise e -> step st r u = Raise e.
Proof. intros H. unfold Sampler.step. rewrite H. reflexivity. Qed.

(** A step that completes either moved or stayed. *)
Lemma step_cases (st st' : chain) (r u : float) :
  step st r u = Val st' ->
  (accepts st r u = Val true /\ st' = moved st r)
  \/ (accepts st r u = Val false /\ st' = st).
Proof.
  unfold Sampler.step. destruct (accepts st r u) as [[|]|e]; simpl;
    intros [= <-]; [left|right]; split; reflexivity.
Qed.

(** The test does not look at the records. *)
Lemma accepts_position (st : chain) (r u : float) :
  accepts st r u = accepts {| x_current := x_current st; x_target := [] |} r u.
Proof. reflexivity. Qed.

(** An accepted iteration leaves a longer list of records. *)
Lemma moved_grows (st : chain) (r : float) : moved st r <> st.
Proof.
  intros H. apply (f_equal (fun s => length (x_target s))) in H.
  simpl in H. rewrite length_app in H. simpl in H. lia.
Qed.

(** The test returns only when both density calls and the division do. *)
Lemma accepts_returns (st : chain) (r u : float) (b : bool) :
  accepts st r u = Val b ->
  exists tp tc, target_dist (x_proposal st r) = Val tp
                /\ target_dist (x_current st) = Val tc
                /\ divides tp tc = true
                /\ b = (u <? clipped (value tp) (value tc)).
Proof.
  unfold Sampler.accepts.
  destruct (target_dist (x_proposal st r)) as [tp|e1]; simpl; [|discriminate].
  destruct (target_dist (x_current st)) as [tc|e2]; simpl; [|discriminate].
  rewrite acceptance_cases. destruct (divides tp tc) eqn:D; simpl; [|discriminate].
  intros [= <-]. exists tp, tc. repeat split; assumption.
Qed.

(** C1, as the loop behaves: when the density is zero at both the current
    and the proposed position, the iteration never stays in place.  If one
    of the two values is a NumPy scalar the ratio 0/0 is a NaN and
    [min(1, nan)] is 1: the acceptance probability is 1 and not 0, and for
    every draw [u] below 1 the proposal is appended to the records and
    made the current position.  If both values are Python numbers the
    division raises [ZeroDivisionError] and the iteration raises it. *)
Theorem both_zero_accepted (st : chain) (r u : float) (tp tc : number) :
  target_dist (x_proposal st r) = Val tp ->
  target_dist (x_current st) = Val tc ->
  (value tp =? 0) = true -> (value tc =? 0) = true -> (u <? 1) = true ->
  (match tp, tc with
   | PyNum _, PyNum _ =>
       acceptance tp tc = Raise ZeroDivisionError
       /\ step st r u = Raise ZeroDivisionError
   | _, _ =>
       acceptance tp tc = Val 1 /\ step st r u = Val (moved st r)
   end)
  /\ step st r u <> Val st.
Proof.
  intros Hp Hc Zp Zc Hu.
  pose proof (accepts_val st r u tp tc Hp Hc) as Ha.
  pose proof (acceptance_cases exn ZeroDivisionError tp tc) as Hq.
  pose proof (clipped_zero_zero (value tp) (value tc) Zp Zc) as H1.
  rewrite H1 in Ha, Hq. rewrite Hu in Ha.
  assert (Hmoved : divides tp tc = true ->
            acceptance tp tc = Val 1 /\ step st r u = Val (moved st r)).
  { intros D. rewrite D in Ha, Hq. split; [exact Hq | apply step_accepted, Ha]. }
  assert (Hstay : divides tp tc = true -> step st r u <> Val st).
  { intros D. destruct (Hmoved D) as [_ ->]. intros [= H].
    exact (moved_grows st r H). }
  destruct tp as [x|x], tc as [y|y];
    try (split; [apply Hmoved | apply Hstay]; reflexivity).
  simpl in Zc, Ha, Hq. rewrite Zc in Ha, Hq. simpl in Ha, Hq.
  rewrite (step_raised st r u _ Ha).
  split; [split; [exact Hq | reflexivity] | discriminate].
Qed.

(** C2, as the loop behaves: the test compares the draw with Python's
    [min(1, target_proposal / target_current)] whenever the division
    returns; that value is never a NaN and never exceeds 1, and it is at
    least 0 when both densities are non-negative and the density at the
    current position is not the negative zero.  Nothing clamps it from
    below.  The division raises only between two Python numbers with a
    zero divisor, and the test raises with it. *)
Theorem acceptance_bounds (st : chain) (r u : float) (tp tc : number) :
  target_dist (x_proposal st r) = Val tp ->
  target_dist (x_current st) = Val tc ->
  match acceptance tp tc with
  | Val a =>
      a = Py.min 1 (value tp / value tc)
      /\ accepts st r u = Val (u <? a)
      /\ (a <=? 1) = true
      /\ (a =? a) = true
      /\ ((0 <=? value tp) = true -> (0 <=? value tc) = true ->
          classify (value tc) <> NZero -> (0 <=? a) = true)
  | Raise e =>
      e = ZeroDivisionError
      /\ accepts st r u = Raise ZeroDivisionError
      /\ exists x y, tp = PyNum x /\ tc = PyNum y /\ (y =? 0) = true
  end.
Proof.
  intros Hp Hc.
  rewrite acceptance_cases, (accepts_val st r u tp tc Hp Hc).
  destruct (divides tp tc) eqn:D.
  - split; [reflexivity|]. split; [reflexivity|]. split; [|split].
    + apply clipped_le_one.
    + apply clipped_not_nan.
    + apply clipped_nonneg.
  - split; [reflexivity|]. split; [reflexivity|]. apply divides_false, D.
Qed.

(** C4: when the density is zero at the proposed position and strictly
    positive at the current one, the division returns, the acceptance
    probability is zero and no draw [u >= 0] accepts: the step leaves the
    position and the records as they were. *)
Theorem zero_density_rejected (st : chain) (r u : float) (tp tc : number) :
  target_dist (x_proposal st r) = Val tp ->
  target_dist (x_current st) = Val tc ->
  (value tp =? 0) = true -> (0 <? value tc) = true -> (0 <=? u) = true ->
  (exists a, acceptance tp tc = Val a /\ (a =? 0) = true)
  /\ step st r u = Val st.
Proof.
  intros Hp Hc Zp Pc Hu.
  pose proof (divides_positive tp tc Pc) as D.
  destruct (clipped_zero_pos (value tp) (value tc) Zp Pc) as [Ha Hz].
  split.
  - exists (clipped (value tp) (value tc)). split.
    + rewrite acceptance_cases, D. reflexivity.
    + rewrite Ha. exact Hz.
  - apply step_rejected. rewrite (accepts_val st r u tp tc Hp Hc), D, Ha.
    f_equal. apply draw_not_below_zero; assumption.
Qed.

(** C8: an iteration that completes appends at most one record; and when
    the draw is at least the acceptance probability it appends none and
    leaves the current position where it was. *)
Theorem rejected_step_frame (st st' : chain) (r u : float) :
  step st r u = Val st' ->
  (exists emitted, x_target st' = x_target st ++ emitted
                   /\ (length emitted <= 1)%nat)
  /\ (forall tp tc,
        target_dist (x_proposal st r) = Val tp ->
        target_dist (x_current st) = Val tc ->
        exists a, acceptance tp tc = Val a
                  /\ ((a <=? u) = true -> st' = st)).
Proof.
  intros H. split.
  - destruct (step_cases _ _ _ _ H) as [[_ ->]|[_ ->]].
    + exists [x_proposal st r]. split; [reflexivity | simpl; lia].
    + exists []. split; [symmetry; apply app_nil_r | simpl; lia].
  - intros tp tc Hp Hc.
    pose proof (accepts_val st r u tp tc Hp Hc) as Ha.
    rewrite acceptance_cases.
    destruct (divides tp tc).
    + exists (clipped (value tp) (value tc)). split; [reflexivity|].
      intros Hu. rewrite (F64.leb_not_ltb _ _ Hu) in Ha.
      rewrite (step_rejected _ _ _ Ha) in H. congruence.
    + rewrite (step_raised _ _ _ _ Ha) in H. discriminate.
Qed.

End StepFacts.

(** ** The loop *)

Section RunFacts.

Variable exn : Type.
Variable ZeroDivisionError : exn.
Variable target_dist : float -> result exn number.
Variable scale : float.

Local Abbreviation acceptance := (acceptance exn ZeroDivisionError).
Local Abbreviation accepts := (accepts exn ZeroDivisionError target_dist scale).
Local Abbreviation step := (step exn ZeroDivisionError target_dist scale).
Local Abbreviation run := (run exn ZeroDivisionError target_dist scale).
Local Abbreviation x_proposal := (x_proposal scale).
Local Abbreviation moved := (moved scale).
Local Abbreviation accepted_proposals :=
  (accepted_proposals ZeroDivisionError target_dist scale).

Lemma run_cons (r u : float) (rest : list (float * float)) (st : chain) :
  run ((r, u) :: rest) st
  = match step st r u with
    | Val st' => run rest st'
    | Raise e => (st, Some e)
    end.
Proof. reflexivity. Qed.

Lemma last_cons (l : list float) :
  forall a d, last (a :: l) d = last l a.
Proof.
  induction l as [|b l IH]; intros a d; [reflexivity|].
  change (last (a :: b :: l) d) with (last (b :: l) d).
  rewrite (IH b d), (IH b a). reflexivity.
Qed.

(** The records grow by the accepted proposals, and the position ends on
    the last of them. *)
Lemma run_records (draws : list (float * float)) :
  forall st,
    x_target (fst (run draws st))
    = x_target st ++ accepted_proposals draws (x_current st)
    /\ x_current (fst (run draws st))
       = last (accepted_proposals draws (x_current st)) (x_current st).
Proof.
  induction draws as [|[r u] rest IH]; intros st.
  - simpl. rewrite app_nil_r. split; reflexivity.
  - rewrite run_cons. unfold Sampler.step. simpl accepted_proposals.
    change (Sampler.accepts exn ZeroDivisionError target_dist scale
              {| x_current := x_current st; x_target := [] |} r u)
      with (accepts st r u).
    destruct (accepts st r u) as [[|]|e]; simpl bind; cbv iota.
    + destruct (IH (moved st r)) as [IH1 IH2]. split.
      * rewrite IH1. simpl. rewrite <- app_assoc. reflexivity.
      * rewrite IH2. simpl x_current.
        change (Sampler.x_proposal scale
                  {| x_current := x_current st; x_target := [] |} r)
          with (x_proposal st r).
        symmetry. apply last_cons.
    + apply IH.
    + simpl. rewrite app_nil_r. split; reflexivity.
Qed.

Lemma run_app (pre post : list (float * float)) :
  forall st st', run pre st = (st', None) -> run (pre ++ post) st = run post st'.
Proof.
  induction pre as [|[r u] pre IH]; intros st st' H.
  - simpl in H. injection H as ->. reflexivity.
  - simpl app. rewrite run_cons in *.
    destruct (step st r u) as [st1|e]; [apply IH, H | discriminate].
Qed.

(** C9: an accepted iteration replaces the current position by the
    proposal and appends that same value.  So a run appends exactly the
    proposals of its accepted iterations, in order; when there is none
    the position is where it started, and otherwise the position it ends
    on is the last of them, which is also the last record. *)
Theorem position_is_last_record (draws : list (float * float)) (st : chain) :
  (forall r u, accepts st r u = Val true ->
     exists st', step st r u = Val st'
                 /\ x_current st' = x_proposal st r
                 /\ x_target st' = x_target st ++ [x_current st'])
  /\ x_target (fst (run draws st))
     = x_target st ++ accepted_proposals draws (x_current st)
  /\ (accepted_proposals draws (x_current st) = [] ->
      x_current (fst (run draws st)) = x_current st)
  /\ (forall front x,
        accepted_proposals draws (x_current st) = front ++ [x] ->
        x_current (fst (run draws st)) = x
        /\ x_target (fst (run draws st)) = x_target st ++ front ++ [x]
        /\ last (x_target (fst (run draws st))) (x_current st)
           = x_current (fst (run draws st))).
Proof.
  destruct (run_records draws st) as [H1 H2].
  split; [|split; [exact H1 | split]].
  - intros r u H. exists (moved st r).
    split; [apply step_accepted, H | split; reflexivity].
  - intros E. rewrite H2, E. reflexivity.
  - intros front x E. rewrite H1, H2, E.
    split; [apply last_last | split; [reflexivity|]].
    rewrite app_assoc, !last_last. reflexivity.
Qed.

Lemma run_all_rejected (draws : list (float * float)) (st : chain) :
  Forall (fun d => accepts st (fst d) (snd d) = Val false) draws ->
  run draws st = (st, None).
Proof.
  induction 1 as [|[r u] rest H _ IH]; [reflexivity|].
  simpl in H. rewrite run_cons, (step_rejected _ _ _ _ _ _ _ H). exact IH.
Qed.

(** C10: started with no records, the loop returns exactly the proposals
    of its accepted iterations, so the initial position is not one of the
    records as such; with no iteration, or with every iteration rejected,
    it returns no record and the initial position. *)
Theorem records_are_accepted_proposals (x0 : float) (draws : list (float * float)) :
  let st0 := {| x_current := x0; x_target := [] |} in
  x_target (fst (run draws st0)) = accepted_proposals draws x0
  /\ run [] st0 = (st0, None)
  /\ (Forall (fun d => accepts st0 (fst d) (snd d) = Val false) draws ->
      run draws st0 = (st0, None)).
Proof.
  intros st0. split; [|split].
  - apply (run_records draws st0).
  - reflexivity.
  - apply run_all_rejected.
Qed.

(** Under a constant positive density every draw below 1 accepts. *)
Lemma constant_accepts (c : number) (st : chain) (r u : float) :
  (forall x, target_dist x = Val c) -> (0 <? value c) = true ->
  (u <? 1) = true -> accepts st r u = Val true.
Proof.
  intros Hc Pc Hu.
  rewrite (accepts_val _ _ _ _ st r u c c (Hc _) (Hc _)).
  rewrite (divides_positive c c Pc), clipped_same, Hu. reflexivity.
Qed.

Lemma run_constant (c : number) (draws : list (float * float)) :
  (forall x, target_dist x = Val c) -> (0 <? value c) = true ->
  Forall (fun d => (snd d <? 1) = true) draws ->
  forall st, exists st',
    run draws st = (st', None)
    /\ length (x_target st') = (length (x_target st) + length draws)%nat.
Proof.
  intros Hc Pc. induction 1 as [|[r u] rest Hu _ IH]; intros st.
  - exists st. split; [reflexivity | simpl; lia].
  - simpl in Hu.
    pose proof (constant_accepts c st r u Hc Pc Hu) as Ha.
    destruct (IH (moved st r)) as [st' [Hr Hl]].
    exists st'. rewrite run_cons, (step_accepted _ _ _ _ _ _ _ Ha).
    split; [exact Hr|].
    rewrite Hl. simpl. rewrite length_app. simpl. lia.
Qed.

(** C5: for a constant strictly positive density the acceptance
    probability is 1 in every iteration, every draw below 1 accepts, and a
    run of [n] iterations completes having appended exactly [n] records. *)
Theorem constant_target_accepts_all (c : number) (draws : list (float * float))
    (st : chain) :
  (forall x, target_dist x = Val c) -> (0 <? value c) = true ->
  Forall (fun d => (snd d <? 1) = true) draws ->
  acceptance c c = Val 1
  /\ exists st', run draws st = (st', None)
                 /\ length (x_target st')
                    = (length (x_target st) + length draws)%nat.
Proof.
  intros Hc Pc Hu. split.
  - rewrite acceptance_cases, (divides_positive c c Pc), clipped_same.
    reflexivity.
  - apply (run_constant c draws Hc Pc Hu st).
Qed.

(** The test raises exactly when one of its two density calls does, or
    when the division does. *)
Lemma accepts_raises (st : chain) (r u : float) (e : exn) :
  accepts st r u = Raise e <->
  (target_dist (x_proposal st r) = Raise e
   \/ (exists tp, target_dist (x_proposal st r) = Val tp
                  /\ target_dist (x_current st) = Raise e)
   \/ (exists tp tc, target_dist (x_proposal st r) = Val tp
                     /\ target_dist (x_current st) = Val tc
                     /\ divides tp tc = false /\ e = ZeroDivisionError)).
Proof.
  unfold Sampler.accepts.
  destruct (target_dist (x_proposal st r)) as [tp|e1]; simpl.
  - destruct (target_dist (x_current st)) as [tc|e2]; simpl.
    + rewrite acceptance_cases. destruct (divides tp tc) eqn:D; simpl; split.
      * discriminate.
      * intros [H|[[tp' [_ H]]|[tp' [tc' [H1 [H2 [H3 _]]]]]]];
          try discriminate. congruence.
      * intros [= <-]. right. right. exists tp, tc. repeat split. exact D.
      * intros [H|[[tp' [_ H]]|[tp' [tc' [_ [_ [_ ->]]]]]]];
          try discriminate. reflexivity.
    + split.
      * intros [= ->]. right. left. exists tp. split; reflexivity.
      * intros [H|[[tp' [_ H]]|[tp' [tc' [_ [H _]]]]]];
          [discriminate | congruence | discriminate].
  - split.
    + intros [= ->]. left. reflexivity.
    + intros [H|[[tp' [H _]]|[tp' [tc' [H _]]]]];
        [congruence | discriminate | discriminate].
Qed.

(** C6, as the loop behaves: when a density call raises in an iteration,
    the loop stops in that iteration with the exception the density
    raised, as it is; the records and the position are those the
    completed iterations left, and the remaining draws are not used. *)
Theorem raise_halts_run (pre post : list (float * float)) (r u : float)
    (e : exn) (st st_k : chain) :
  run pre st = (st_k, None) ->
  (target_dist (x_proposal st_k r) = Raise e
   \/ exists tp, target_dist (x_proposal st_k r) = Val tp
                 /\ target_dist (x_current st_k) = Raise e) ->
  run (pre ++ (r, u) :: post) st = (st_k, Some e)
  /\ x_target st_k = x_target st ++ accepted_proposals pre (x_current st).
Proof.
  intros Hpre Hraise. split.
  - rewrite (run_app pre _ st st_k Hpre), run_cons.
    assert (Ha : accepts st_k r u = Raise e).
    { apply (proj2 (accepts_raises st_k r u e)).
      destruct Hraise as [H|H]; [left | right; left]; exact H. }
    rewrite (step_raised _ _ _ _ _ _ _ _ Ha). reflexivity.
  - pose proof (proj1 (run_records pre st)) as H.
    rewrite Hpre in H. exact H.
Qed.

Lemma step_keeps_nonneg (st st' : chain) (r u : float) (t : number) :
  (forall x v, target_dist x = Val v -> tame (value v) = true) ->
  (0 <=? u) = true ->
  target_dist (x_current st) = Val t -> finite_nonneg (value t) = true ->
  step st r u = Val st' ->
  exists t', target_dist (x_current st') = Val t'
             /\ finite_nonneg (value t') = true.
Proof.
  intros Htame Hu Ht Hn Hstep.
  destruct (step_cases _ _ _ _ _ _ _ _ Hstep) as [[Ha ->]|[_ ->]].
  - destruct (accepts_returns _ _ _ _ _ _ _ _ Ha) as [tp [tc [Hp [Hc [_ Hb]]]]].
    exists tp. split; [exact Hp|].
    assert (tc = t) as -> by congruence.
    destruct (finite_nonneg (value tp)) eqn:E; [reflexivity|].
    pose proof (negative_density_rejected (value tp) (value t) u
                  (Htame _ _ Hp) E (Htame _ _ Ht) Hn Hu) as Hrej.
    congruence.
  - exists t. split; assumption.
Qed.


End RunFacts.

(** ** The loop on concrete densities *)

Module Worked.

Import Examples.

Local Abbreviation py_box := (python (exn := py_exn) box).
Local Abbreviation np_box := (numpy (exn := py_exn) box).
Local Abbreviation py_parabola := (python (exn := py_exn) parabola).
Local Abbreviation np_root := (numpy (exn := py_exn) root).
Local Abbreviation py_one := (python (exn := py_exn) one).

(** C1 fails as stated: with [lambda x: np.float64(0 <= x <= 1)] a chain at
    2 proposes 2.1; both densities are zero, yet the iteration does not
    leave the chain in place: it appends 2.1 and moves there.  With
    [lambda x: 1.0 if 0 <= x <= 1 else 0.0] the same iteration raises
    [ZeroDivisionError], and the run does not continue. *)
Lemma both_zero_moves :
  np_box (x_proposal Cell9.scale outside 0) = Val (NpNum 0)
  /\ np_box (x_current outside) = Val (NpNum 0)
  /\ NumPy.unit_draw 0.5
  /\ acceptance py_exn ZeroDivisionError (NpNum 0) (NpNum 0) = Val 1
  /\ step py_exn ZeroDivisionError np_box Cell9.scale outside 0 0.5
     = Val {| x_current := 0x1.0cccccccccccdp+1;
              x_target := [0x1.0cccccccccccdp+1] |}
  /\ step py_exn ZeroDivisionError np_box Cell9.scale outside 0 0.5
     <> Val outside
  /\ py_box (x_proposal Cell9.scale outside 0) = Val (PyNum 0)
  /\ py_box (x_current outside) = Val (PyNum 0)
  /\ run py_exn ZeroDivisionError py_box Cell9.scale [(0, 0.5); (0, 0.5)] outside
     = (outside, Some ZeroDivisionError).
Proof.
  repeat split; try reflexivity.
  vm_compute. discriminate.
Qed.

Lemma both_zero_accepted_witness :
  (acceptance py_exn ZeroDivisionError (NpNum 0) (NpNum 0) = Val 1
   /\ step py_exn ZeroDivisionError np_box Cell9.scale outside 0 0.5
      = Val (moved Cell9.scale outside 0))
  /\ step py_exn ZeroDivisionError np_box Cell9.scale outside 0 0.5
     <> Val outside.
Proof.
  exact (both_zero_accepted py_exn ZeroDivisionError np_box Cell9.scale
           outside 0 0.5 (NpNum 0) (NpNum 0)
           eq_refl eq_refl eq_refl eq_refl eq_refl).
Defined.

(** C2 fails as stated: for [lambda x: x*(1-x)] a chain at 0.0625 that
    proposes a negative position computes a negative acceptance
    probability. *)
Lemma acceptance_below_zero :
  let tp := parabola (x_proposal Cell9.scale near_zero top_draw) in
  let tc := parabola (x_current near_zero) in
  py_parabola (x_proposal Cell9.scale near_zero top_draw) = Val (PyNum tp)
  /\ py_parabola (x_current near_zero) = Val (PyNum tc)
  /\ acceptance py_exn ZeroDivisionError (PyNum tp) (PyNum tc)
     = Val (Py.min 1 (tp / tc))
  /\ accepts py_exn ZeroDivisionError py_parabola Cell9.scale near_zero
       top_draw 0.5
     = Val (0.5 <? Py.min 1 (tp / tc))
  /\ (tp <? 0) = true /\ (0 <? tc) = true
  /\ (0 <=? Py.min 1 (tp / tc)) = false.
Proof. repeat split. Qed.

Lemma acceptance_bounds_witness :
  let tp := box (x_proposal Cell9.scale near_edge 0.5) in
  let tc := box (x_current near_edge) in
  let a := Py.min 1 (tp / tc) in
  acceptance py_exn ZeroDivisionError (PyNum tp) (PyNum tc) = Val a
  /\ accepts py_exn ZeroDivisionError py_box Cell9.scale near_edge 0.5 0.25
     = Val (0.25 <? a)
  /\ (a <=? 1) = true
  /\ (a =? a) = true
  /\ (0 <=? a) = true.
Proof.
  intros tp tc a.
  destruct (acceptance_bounds py_exn ZeroDivisionError py_box Cell9.scale
              near_edge 0.5 0.25 (PyNum tp) (PyNum tc) eq_refl eq_refl)
    as [H0 [H1 [H2 [H3 H4]]]].
  split; [reflexivity | split; [exact H1 | split; [exact H2 | split; [exact H3|]]]].
  apply H4; [reflexivity | reflexivity | discriminate].
Defined.

Lemma zero_density_rejected_witness :
  (exists a, acceptance py_exn ZeroDivisionError (PyNum 0) (PyNum 1) = Val a
             /\ (a =? 0) = true)
  /\ step py_exn ZeroDivisionError py_box Cell9.scale near_edge 0 0.5
     = Val near_edge.
Proof.
  apply (zero_density_rejected py_exn ZeroDivisionError py_box Cell9.scale
           near_edge 0 0.5 (PyNum 0) (PyNum 1)); reflexivity.
Defined.

Lemma constant_target_accepts_all_witness :
  acceptance py_exn ZeroDivisionError (PyNum 1) (PyNum 1) = Val 1
  /\ exists st',
       run py_exn ZeroDivisionError py_one Cell9.scale
         [(0, 0.5); (0.5, 0.25); (0.75, 0)] Cell9.initial = (st', None)
       /\ length (x_target st') = (length (x_target Cell9.initial) + 3)%nat.
Proof.
  apply (constant_target_accepts_all py_exn ZeroDivisionError py_one Cell9.scale
           (PyNum 1) [(0, 0.5); (0.5, 0.25); (0.75, 0)] Cell9.initial).
  - reflexivity.
  - reflexivity.
  - repeat constructor.
Defined.

(** C6 fails as stated: the density raises [ValueError] at 10.1, and that
    exception, not a [TargetEvaluationError] carrying 10.1, is what stops
    the loop. *)
Lemma raise_is_not_wrapped :
  bounded_above (x_proposal Cell9.scale at_ten 0) = Raise ValueError
  /\ run py_exn ZeroDivisionError bounded_above Cell9.scale [(0, 0.5)] at_ten
     = (at_ten, Some ValueError)
  /\ snd (run py_exn ZeroDivisionError bounded_above Cell9.scale [(0, 0.5)] at_ten)
     <> Some (TargetEvaluationError (x_proposal Cell9.scale at_ten 0)).
Proof.
  repeat split. vm_compute. discriminate.
Qed.

Lemma raise_halts_run_witness :
  run py_exn ZeroDivisionError bounded_above Cell9.scale
    ([(0.5, 0.5)] ++ (0, 0.5) :: [(0.5, 0.5)]) at_ten
  = ({| x_current := 10; x_target := [10] |}, Some ValueError)
  /\ [10] = [] ++ accepted_proposals ZeroDivisionError bounded_above
                    Cell9.scale [(0.5, 0.5)] 10.
Proof.
  apply (raise_halts_run py_exn ZeroDivisionError bounded_above Cell9.scale
           [(0.5, 0.5)] [(0.5, 0.5)] 0 0.5 ValueError at_ten
           {| x_current := 10; x_target := [10] |}).
  - reflexivity.
  - left. reflexivity.
Defined.


Lemma box_tame (x : float) (v : number) :
  py_box x = Val v -> tame (value v) = true.
Proof.
  intros [= <-]. unfold box. destruct ((0 <=? x) && (x <=? 1)); reflexivity.
Qed.


Lemma rejected_step_frame_witness :
  (exists emitted, x_target near_edge = x_target near_edge ++ emitted
                   /\ (length emitted <= 1)%nat)
  /\ (forall tp tc,
        py_box (x_proposal Cell9.scale near_edge 0) = Val tp ->
        py_box (x_current near_edge) = Val tc ->
        exists a, acceptance py_exn ZeroDivisionError tp tc = Val a
                  /\ ((a <=? 0.5) = true -> near_edge = near_edge)).
Proof.
  apply (rejected_step_frame py_exn ZeroDivisionError py_box Cell9.scale
           near_edge near_edge 0 0.5).
  reflexivity.
Defined.

End Worked.

(** ** Rounding to nearest, bounded from above *)

Module Rounding.

Import Magnitude.

Local Open Scope Z_scope.

Lemma digits2_pos_bounds (p : positive) :
  2 ^ (Z.pos (digits2_pos p) - 1) <= Z.pos p < 2 ^ Z.pos (digits2_pos p).
Proof.
  induction p as [p IH|p IH|]; simpl digits2_pos.
  - rewrite Pos2Z.inj_succ.
    replace (Z.succ (Z.pos (digits2_pos p)) - 1) with (Z.succ (Z.pos (digits2_pos p) - 1)) by lia.
    rewrite !Z.pow_succ_r by lia. lia.
  - rewrite Pos2Z.inj_succ.
    replace (Z.succ (Z.pos (digits2_pos p)) - 1) with (Z.succ (Z.pos (digits2_pos p) - 1)) by lia.
    rewrite !Z.pow_succ_r by lia. lia.
  - simpl. lia.
Qed.

Lemma iter_pos_iter {A : Type} (f : A -> A) (p : positive) :
  forall x, iter_pos f p x = Pos.iter f x p.
Proof.
  induction p as [p IH|p IH|]; intros x; simpl.
  - rewrite !IH. rewrite 2 Pos.iter_swap. reflexivity.
  - rewrite !IH. reflexivity.
  - reflexivity.
Qed.

Lemma shr_1_m (mrs : shr_record) :
  0 <= shr_m mrs -> shr_m (shr_1 mrs) = shr_m mrs / 2.
Proof.
  destruct mrs as [m r s]; simpl. intros H.
  destruct m as [|p|p]; [reflexivity| |lia].
  destruct p as [p|p|]; simpl.
  - apply Z.div_unique with (r := 1); lia.
  - apply Z.div_unique with (r := 0); lia.
  - reflexivity.
Qed.

Lemma shr_1_r (mrs : shr_record) :
  0 <= shr_m mrs -> shr_r (shr_1 mrs) = Z.odd (shr_m mrs).
Proof.
  destruct mrs as [m r s]; simpl. intros H.
  destruct m as [|p|p]; [reflexivity| |lia].
  destruct p as [p|p|]; reflexivity.
Qed.

Lemma shr_nat_m (k : nat) (mrs : shr_record) :
  0 <= shr_m mrs ->
  shr_m (Nat.iter k shr_1 mrs) = shr_m mrs / 2 ^ Z.of_nat k.
Proof.
  intros H. induction k as [|k IH].
  - simpl. symmetry. apply Z.div_1_r.
  - simpl Nat.iter. rewrite shr_1_m, IH.
    + rewrite Nat2Z.inj_succ, Z.pow_succ_r by lia.
      rewrite Z.div_div by lia. f_equal. lia.
    + rewrite IH. apply Z.div_pos; lia.
Qed.

Lemma shr_nat_r (k : nat) (mrs : shr_record) :
  0 <= shr_m mrs ->
  shr_r (Nat.iter (S k) shr_1 mrs) = Z.odd (shr_m mrs / 2 ^ Z.of_nat k).
Proof.
  intros H. simpl Nat.iter. rewrite shr_1_r, shr_nat_m by
    (try rewrite shr_nat_m by exact H; try apply Z.div_pos; lia).
  reflexivity.
Qed.

(** The shift of a record with an exact location. *)
Lemma shr_exact (m e n : Z) :
  0 <= m -> 0 <= n ->
  let mrs := fst (shr (shr_record_of_loc m loc_Exact) e n) in
  snd (shr (shr_record_of_loc m loc_Exact) e n) = e + n
  /\ shr_m mrs = m / 2 ^ n
  /\ (shr_r mrs = true -> 0 < n /\ Z.odd (m / 2 ^ (n - 1)) = true).
Proof.
  intros Hm Hn. unfold shr, shr_record_of_loc.
  destruct n as [|p|p]; [| |lia]; cbn [fst snd].
  - rewrite Z.add_0_r, Z.pow_0_r, Z.div_1_r. repeat split; discriminate.
  - rewrite iter_pos_iter, Pos2Nat.inj_iter.
    change (nat_rect (fun _ => shr_record) ?x (fun _ => shr_1) ?k)
      with (Nat.iter k shr_1 x).
    split; [reflexivity|]. split.
    + rewrite shr_nat_m by exact Hm. rewrite positive_nat_Z. reflexivity.
    + destruct (Pos2Nat.is_succ p) as [k Hk]. rewrite Hk.
      rewrite shr_nat_r by exact Hm. cbn [shr_m].
      replace (Z.pos p - 1) with (Z.of_nat k) by lia.
      intros ->. split; [lia | reflexivity].
Qed.

Lemma round_nearest_even_range (mrs : shr_record) :
  let m := shr_m mrs in
  m <= round_nearest_even m (loc_of_shr_record mrs) <= m + 1
  /\ (shr_r mrs = false -> round_nearest_even m (loc_of_shr_record mrs) = m).
Proof.
  destruct mrs as [m [|] [|]]; simpl; try (destruct (Z.even m)); repeat split;
    try lia; try discriminate.
Qed.

(** Rounding to nearest does not pass a grid point [G] that the value does
    not reach by half a unit. *)
Lemma round_le (mx ex n G : Z) :
  0 <= mx -> 0 <= n -> 2 * mx < (2 * G + 1) * 2 ^ n ->
  let mrs := fst (shr (shr_record_of_loc mx loc_Exact) ex n) in
  0 <= round_nearest_even (shr_m mrs) (loc_of_shr_record mrs) <= G.
Proof.
  intros Hm Hn Hlt mrs.
  destruct (shr_exact mx ex n Hm Hn) as [_ [Hq Hr]]. fold mrs in Hq, Hr.
  destruct (round_nearest_even_range mrs) as [[Hlo Hhi] Hsame].
  assert (Hp : 0 < 2 ^ n) by (apply Z.pow_pos_nonneg; lia).
  assert (H1 : 0 <= shr_m mrs) by (rewrite Hq; apply Z.div_pos; lia).
  split; [lia|].
  destruct (shr_r mrs) eqn:E.
  - destruct (Hr eq_refl) as [Hn1 Hodd].
    assert (Hp1 : 0 < 2 ^ (n - 1)) by (apply Z.pow_pos_nonneg; lia).
    assert (H2 : 2 ^ n = 2 * 2 ^ (n - 1)).
    { replace n with (Z.succ (n - 1)) at 1 by lia. apply Z.pow_succ_r. lia. }
    set (q := mx / 2 ^ (n - 1)) in *.
    assert (Hq1 : 2 ^ (n - 1) * q <= mx) by (apply Z.mul_div_le; lia).
    assert (Hq2 : shr_m mrs = q / 2).
    { rewrite Hq, H2, Z.mul_comm, <- Z.div_div by lia. reflexivity. }
    pose proof (Zmod_odd q) as Hq3. rewrite Hodd in Hq3.
    pose proof (Z.div_mod q 2 ltac:(lia)) as Hq4.
    nia.
  - rewrite (Hsame eq_refl), Hq.
    apply Z.lt_succ_r, Z.div_lt_upper_bound; [lia|]. nia.
Qed.

Lemma fexp_eq (e : Z) : fexp prec emax e = Z.max (e - 53) (-1074).
Proof. reflexivity. Qed.

Lemma pow2_lt_exp (a b : Z) : 0 <= b -> 2 ^ a < 2 ^ b -> a < b.
Proof. intros Hb H. apply (Z.pow_lt_mono_r_iff 2); lia. Qed.

Lemma pow2_split (a b : Z) : 0 <= a -> 0 <= b -> 2 ^ (a + b) = 2 ^ a * 2 ^ b.
Proof. intros. apply Z.pow_add_r; assumption. Qed.

Lemma binary_round_aux_below (s : bool) (mx : positive) (ex : Z)
    (B : positive) (eB : Z) :
  ex <= fexp prec emax (Z.pos (digits2_pos mx) + ex) ->
  ex <= eB ->
  bounded prec emax B eB = true ->
  2 * Z.pos mx < (2 * Z.pos B + 1) * 2 ^ (eB - ex) ->
  below s B eB (binary_round_aux prec emax s (Z.pos mx) ex loc_Exact).
Proof.
  intros H1 H2 HB H3.
  apply andb_prop in HB. destruct HB as [HB1 HB2].
  apply Z.eqb_eq in HB1. apply Z.leb_le in HB2.
  change (emax - prec) with 971 in HB2.
  pose proof (digits2_pos_bounds mx) as Dx.
  pose proof (digits2_pos_bounds B) as DB.
  set (d := Z.pos (digits2_pos mx)) in *.
  set (dB := Z.pos (digits2_pos B)) in *.
  assert (Hd : 0 < d) by (subst d; lia).
  assert (HdB : 0 < dB) by (subst dB; lia).
  (* the value lies below the binade above [B] *)
  assert (Ha : d + ex <= dB + eB).
  { assert (Hpw : 2 ^ (d - 1) < 2 ^ (dB + (eB - ex))).
    { rewrite pow2_split by lia.
      assert (0 < 2 ^ (eB - ex)) by (apply Z.pow_pos_nonneg; lia). nia. }
    apply pow2_lt_exp in Hpw; lia. }
  rewrite fexp_eq in H1, HB1.
  unfold binary_round_aux, shr_fexp. cbn [Zdigits2]. fold d.
  rewrite fexp_eq.
  set (e1 := Z.max (d + ex - 53) (-1074)) in *.
  assert (He1 : e1 <= eB) by lia.
  set (G := Z.pos B * 2 ^ (eB - e1)).
  assert (HG : Z.pos B * 2 ^ (eB - ex) = G * 2 ^ (e1 - ex)).
  { subst G. rewrite <- Z.mul_assoc, <- pow2_split by lia. do 2 f_equal. lia. }
  assert (H3' : 2 * Z.pos mx < (2 * G + 1) * 2 ^ (e1 - ex)).
  { assert (0 < 2 ^ (e1 - ex)) by (apply Z.pow_pos_nonneg; lia).
    destruct (Z.eq_dec e1 eB) as [Heq|Hne].
    - subst G. rewrite Heq in *. rewrite Z.sub_diag, Z.mul_1_r. exact H3.
    - assert (Hlt : d + ex < dB + eB) by lia.
      assert (Hpw : 2 ^ d <= 2 ^ (dB - 1 + (eB - ex)))
        by (apply Z.pow_le_mono_r; lia).
      rewrite pow2_split in Hpw by lia.
      assert (0 < 2 ^ (eB - ex)) by (apply Z.pow_pos_nonneg; lia).
      nia. }
  pose proof (round_le (Z.pos mx) ex (e1 - ex) G ltac:(lia) ltac:(lia) H3') as Hr.
  destruct (shr_exact (Z.pos mx) ex (e1 - ex) ltac:(lia) ltac:(lia)) as [Hs _].
  cbv zeta in Hr.
  destruct (shr (shr_record_of_loc (Z.pos mx) loc_Exact) ex (e1 - ex))
    as [mrs1 e1'].
  cbn [fst snd] in Hr, Hs.
  replace e1' with e1 by lia. clear Hs e1'.
  set (m2 := round_nearest_even (shr_m mrs1) (loc_of_shr_record mrs1)) in *.
  rewrite fexp_eq.
  set (n2 := Z.max (Zdigits2 m2 + e1 - 53) (-1074) - e1).
  assert (Hfin : forall m3 e3, 0 <= m3 -> e3 <= eB -> m3 <= Z.pos B * 2 ^ (eB - e3) ->
            below s B eB
              match m3 with
              | 0 => S754_zero s
              | Z.pos m => if e3 <=? emax - prec then S754_finite s m e3
                           else S754_infinity s
              | Z.neg _ => S754_nan
              end).
  { intros m3 e3 Hm3 He3 Hle. destruct m3 as [|m|m]; [reflexivity| |lia].
    change (emax - prec) with 971.
    replace (e3 <=? 971) with true by (symmetry; apply Z.leb_le; lia).
    repeat split; assumption. }
  destruct (Z_le_gt_dec n2 0) as [Hn2|Hn2].
  - (* no second shift *)
    assert (Hsh : shr (shr_record_of_loc m2 loc_Exact) e1 n2
                  = (shr_record_of_loc m2 loc_Exact, e1)).
    { unfold shr. destruct n2; [reflexivity|lia|reflexivity]. }
    rewrite Hsh. cbn [shr_record_of_loc shr_m].
    apply Hfin; [lia | lia | subst G; lia].
  - (* the rounded mantissa gained a digit *)
    destruct (shr_exact m2 e1 n2 ltac:(lia) ltac:(lia)) as [Hs [Hq _]].
    destruct (shr (shr_record_of_loc m2 loc_Exact) e1 n2) as [mrs2 e3].
    cbn [fst snd] in Hs, Hq. subst e3. rewrite Hq.
    assert (Hm2 : 0 < m2).
    { destruct (Z.eq_dec m2 0) as [E|E]; [|lia].
      subst n2. rewrite E in Hn2. cbn [Zdigits2] in Hn2. lia. }
    destruct m2 as [|p2|p2] eqn:Em2; try lia.
    cbn [Zdigits2] in *.
    pose proof (digits2_pos_bounds p2) as D2.
    set (d2 := Z.pos (digits2_pos p2)) in *.
    assert (Hd2 : d2 + e1 <= dB + eB).
    { assert (Hpw : 2 ^ (d2 - 1) < 2 ^ (dB + (eB - e1))).
      { rewrite pow2_split by lia.
        assert (0 < 2 ^ (eB - e1)) by (apply Z.pow_pos_nonneg; lia).
        subst G. nia. }
      apply pow2_lt_exp in Hpw; lia. }
    assert (He3 : e1 + n2 <= eB) by lia.
    assert (0 < 2 ^ n2) by (apply Z.pow_pos_nonneg; lia).
    apply Hfin.
    + apply Z.div_pos; lia.
    + exact He3.
    + apply Z.div_le_upper_bound; [lia|].
      rewrite (Z.mul_comm (2 ^ n2)), <- Z.mul_assoc, <- pow2_split by lia.
      replace (eB - (e1 + n2) + n2) with (eB - e1) by lia.
      subst G. lia.
Qed.

Lemma iter_xO_nat (k : nat) (p : positive) :
  Z.pos (Nat.iter k xO p) = Z.pos p * 2 ^ Z.of_nat k
  /\ Z.pos (digits2_pos (Nat.iter k xO p)) = Z.pos (digits2_pos p) + Z.of_nat k.
Proof.
  induction k as [|k [IH1 IH2]].
  - simpl. split; lia.
  - cbn [Nat.iter nat_rect]. cbn [digits2_pos].
    rewrite Pos2Z.inj_xO, Pos2Z.inj_succ, Nat2Z.inj_succ, Z.pow_succ_r by lia.
    change (nat_rect (fun _ => positive) p (fun _ => xO) k) with (Nat.iter k xO p).
    split; lia.
Qed.

(** Aligning a mantissa to a smaller exponent keeps the value and the
    position of its leading digit. *)
Lemma shl_align_spec (mx : positive) (ex ex' : Z) :
  let e' := Z.min ex ex' in
  snd (shl_align mx ex ex') = e'
  /\ Z.pos (fst (shl_align mx ex ex')) = Z.pos mx * 2 ^ (ex - e')
  /\ Z.pos (digits2_pos (fst (shl_align mx ex ex'))) + e'
     = Z.pos (digits2_pos mx) + ex.
Proof.
  unfold shl_align. destruct (ex' - ex) as [|d|d] eqn:E; cbn [fst snd].
  - replace (Z.min ex ex') with ex by lia.
    rewrite Z.sub_diag. repeat split; lia.
  - replace (Z.min ex ex') with ex by lia.
    rewrite Z.sub_diag. repeat split; lia.
  - replace (Z.min ex ex') with ex' by lia.
    rewrite Pos2Nat.inj_iter.
    change (nat_rect (fun _ => positive) ?x (fun _ => xO) ?k)
      with (Nat.iter k xO x).
    destruct (iter_xO_nat (Pos.to_nat d) mx) as [I1 I2].
    rewrite I1, I2, positive_nat_Z.
    replace (ex - ex') with (Z.pos d) by lia. repeat split; lia.
Qed.

Lemma binary_round_below (s : bool) (w : positive) (ez : Z)
    (B : positive) (eB : Z) :
  ez <= eB ->
  bounded prec emax B eB = true ->
  Z.pos w <= Z.pos B * 2 ^ (eB - ez) ->
  below s B eB (binary_round prec emax s w ez).
Proof.
  intros H2 HB Hw. unfold binary_round.
  destruct (shl_align_spec w ez (fexp prec emax (Z.pos (digits2_pos w) + ez)))
    as [A1 [A2 A3]].
  destruct (shl_align w ez _) as [mz ez']. cbn [fst snd] in A1, A2, A3.
  subst ez'.
  set (ez' := Z.min ez (fexp prec emax (Z.pos (digits2_pos w) + ez))) in *.
  apply binary_round_aux_below.
  - rewrite A3. subst ez'. lia.
  - lia.
  - exact HB.
  - rewrite A2.
    assert (Hsplit : 2 ^ (eB - ez') = 2 ^ (eB - ez) * 2 ^ (ez - ez')).
    { rewrite <- pow2_split by lia. f_equal. lia. }
    assert (0 < 2 ^ (ez - ez')) by (apply Z.pow_pos_nonneg; lia).
    rewrite Hsplit. nia.
Qed.

Lemma below_one_cases (m : positive) (e : Z) :
  SFltb (S754_finite false m e) (S754_finite false 4503599627370496 (-52)) = true ->
  e < -52 \/ (e = -52 /\ Z.pos m < 4503599627370496).
Proof.
  unfold SFltb, SFcompare.
  destruct (Z.compare_spec e (-52)) as [E|E|E]; [|left; exact E|discriminate].
  destruct (PosDef.Pos.compare_cont Eq m 4503599627370496) eqn:F;
    try discriminate.
  intros _. right. split; [exact E | exact F].
Qed.

Lemma draw_shape (m : positive) (e : Z) :
  bounded prec emax m e = true ->
  SFltb (S754_finite false m e) (S754_finite false 4503599627370496 (-52)) = true ->
  e <= -53 /\ Z.pos m < 2 ^ 53.
Proof.
  intros HB Hlt. apply below_one_cases in Hlt.
  apply andb_prop in HB. destruct HB as [HB _].
  apply Z.eqb_eq in HB. rewrite fexp_eq in HB.
  pose proof (digits2_pos_bounds m) as D.
  set (d := Z.pos (digits2_pos m)) in *.
  assert (Hd : d <= 53) by lia.
  assert (Hm : Z.pos m < 2 ^ 53).
  { apply Z.lt_le_trans with (2 ^ d); [lia|]. apply Z.pow_le_mono_r; lia. }
  split; [|exact Hm].
  destruct Hlt as [E|[E F]]; [lia|]. exfalso.
  assert (Hd53 : d = 53) by lia.
  assert (Hpw : 2 ^ (d - 1) = 4503599627370496) by (rewrite Hd53; reflexivity).
  lia.
Qed.

Lemma mul_width_below (m : positive) (e : Z) :
  e <= -53 -> Z.pos m < 2 ^ 53 ->
  below false (M - 1) (-55)
    (SF64mul (S754_finite false M (-55)) (S754_finite false m e)).
Proof.
  intros He Hm. unfold SF64mul, SFmul. cbn [xorb].
  assert (E53 : 2 ^ 53 = 9007199254740992) by reflexivity.
  assert (E52 : 2 ^ 52 = 4503599627370496) by reflexivity.
  pose proof (digits2_pos_bounds (M * m)) as D.
  rewrite Pos2Z.inj_mul in D.
  assert (HM : Z.pos M = 7205759403792794) by reflexivity.
  assert (Hd : 52 < Z.pos (digits2_pos (M * m))).
  { apply pow2_lt_exp; [lia|]. rewrite E52. nia. }
  apply binary_round_aux_below.
  - rewrite fexp_eq. lia.
  - lia.
  - reflexivity.
  - replace (-55 - (-55 + e)) with (- e) by lia.
    assert (HP : - e = 53 \/ 2 ^ 54 <= 2 ^ (- e)).
    { destruct (Z.eq_dec (- e) 53); [left; assumption|right].
      apply Z.pow_le_mono_r; lia. }
    assert (E54 : 2 ^ 54 = 18014398509481984) by reflexivity.
    assert (HM1 : Z.pos (M - 1) = 7205759403792793) by reflexivity.
    rewrite Pos2Z.inj_mul, HM, HM1.
    destruct HP as [HP|HP]; [rewrite HP, E53 | rewrite E54 in HP]; lia.
Qed.

Lemma SFleb_neg_neg (a b : positive) (e e' : Z) :
  e' <= e -> (e' = e -> Z.pos b <= Z.pos a) ->
  SFleb (S754_finite true a e) (S754_finite true b e') = true.
Proof.
  intros He Hm. unfold SFleb, SFcompare.
  destruct (Z.compare_spec e e') as [E|E|E]; [|lia|reflexivity].
  destruct (PosDef.Pos.compare_cont Eq a b) eqn:F; try reflexivity.
  exfalso. assert (F' : (a < b)%positive) by exact F.
  specialize (Hm (eq_sym E)). lia.
Qed.

Lemma SFltb_pos_pos (a b : positive) (e e' : Z) :
  e <= e' -> (e = e' -> Z.pos a < Z.pos b) ->
  SFltb (S754_finite false a e) (S754_finite false b e') = true.
Proof.
  intros He Hm. unfold SFltb, SFcompare.
  destruct (Z.compare_spec e e') as [E|E|E]; [|reflexivity|lia].
  specialize (Hm E).
  assert (F : (a < b)%positive) by lia.
  unfold Pos.lt, Pos.compare in F. rewrite F. reflexivity.
Qed.

Lemma below_neg_window (z : spec_float) : below true M (-56) z -> in_window z.
Proof.
  destruct z as [s|s| |s m e]; unfold below; try contradiction.
  - intros ->. split; reflexivity.
  - intros [-> [He Hm]]. split; [|reflexivity].
    apply SFleb_neg_neg; [exact He|].
    intros ->. change (-56 - -56) with 0 in Hm. rewrite Z.mul_1_r in Hm. exact Hm.
Qed.

Lemma below_pos_window (z : spec_float) : below false (M - 2) (-56) z -> in_window z.
Proof.
  destruct z as [s|s| |s m e]; unfold below; try contradiction.
  - intros ->. split; reflexivity.
  - intros [-> [He Hm]]. split; [reflexivity|].
    apply SFltb_pos_pos; [exact He|].
    intros ->. change (-56 - -56) with 0 in Hm. rewrite Z.mul_1_r in Hm.
    assert (Z.pos (M - 2) < Z.pos M) by reflexivity. lia.
Qed.

Lemma add_low_window (y : spec_float) :
  below false (M - 1) (-55) y ->
  in_window (SF64add (S754_finite true M (-56)) y).
Proof.
  destruct y as [s|s| |s m e]; unfold below; try contradiction.
  - intros ->. split; reflexivity.
  - intros [-> [He Hm]]. unfold SF64add, SFadd.
    set (ez := Z.min (-56) e).
    destruct (shl_align_spec M (-56) ez) as [_ [A2 _]].
    destruct (shl_align_spec m e ez) as [_ [B2 _]].
    replace (Z.min (-56) ez) with ez in A2 by lia.
    replace (Z.min e ez) with ez in B2 by lia.
    cbn [cond_Zopp].
    set (a := fst (shl_align M (-56) ez)) in *.
    set (b := fst (shl_align m e ez)) in *.
    assert (HM : Z.pos M = 7205759403792794) by reflexivity.
    assert (HM1 : Z.pos (M - 1) = 7205759403792793) by reflexivity.
    assert (HM2 : Z.pos (M - 2) = 7205759403792792) by reflexivity.
    assert (Hez : ez <= -56) by lia.
    (* the three powers of two in terms of one *)
    assert (Hpw : exists P Q, 0 < P /\ 0 < Q
              /\ 2 ^ (-56 - ez) = P /\ 2 ^ (e - ez) = Q /\ 2 ^ (-55 - e) * Q = 2 * P).
    { exists (2 ^ (-56 - ez)), (2 ^ (e - ez)).
      repeat split; try (apply Z.pow_pos_nonneg; lia).
      rewrite <- pow2_split by lia.
      replace (-55 - e + (e - ez)) with (Z.succ (-56 - ez)) by lia.
      apply Z.pow_succ_r. lia. }
    destruct Hpw as [P [Q [HP [HQ [EP [EQ EPQ]]]]]].
    rewrite EP in A2. rewrite EQ in B2. rewrite HM in A2. rewrite HM1 in Hm.
    destruct (- Z.pos a + Z.pos b) as [|w|w] eqn:W; unfold binary_normalize.
    + split; reflexivity.
    + apply below_pos_window, binary_round_below; [exact Hez|reflexivity|].
      rewrite HM2, EP. nia.
    + apply below_neg_window, binary_round_below; [exact Hez|reflexivity|].
      rewrite HM, EP. nia.
Qed.

End Rounding.

(** ** The proposal window *)

Section ProposalWindow.

Import Magnitude Rounding.

Lemma Prim2SF_low : Prim2SF (- Cell9.scale / 2) = S754_finite true M (-56).
Proof. reflexivity. Qed.

Lemma Prim2SF_high : Prim2SF (Cell9.scale / 2) = S754_finite false M (-56).
Proof. reflexivity. Qed.

Lemma Prim2SF_width :
  Prim2SF (Cell9.scale / 2 - - Cell9.scale / 2) = S754_finite false M (-55).
Proof. reflexivity. Qed.

Lemma delta_in_window (r : float) :
  NumPy.unit_draw r -> in_window (Prim2SF (delta Cell9.scale r)).
Proof.
  intros [H0 H1]. unfold delta, NumPy.uniform.
  rewrite add_spec, mul_spec, Prim2SF_low, Prim2SF_width.
  rewrite leb_spec in H0. rewrite ltb_spec in H1.
  rewrite F64.Prim2SF_zero in H0. rewrite F64.Prim2SF_one in H1.
  pose proof (Prim2SF_valid r) as V.
  destruct (Prim2SF r) as [s|s| |s m e].
  - destruct s; split; reflexivity.
  - destruct s; discriminate.
  - discriminate.
  - destruct s; [discriminate|].
    destruct (draw_shape m e V H1) as [He Hm].
    apply add_low_window, mul_width_below; assumption.
Qed.

(** X1: with the notebook's [scale = 0.2], every raw draw of [0, 1) gives
    a perturbation in the half-open window from [-scale/2], which the draw 0
    reaches, up to and without [scale/2]; the proposal is the current
    position minus that perturbation. *)
Theorem proposal_window (st : chain) (r : float) :
  NumPy.unit_draw r ->
  x_proposal Cell9.scale st r = x_current st - delta Cell9.scale r
  /\ (- Cell9.scale / 2 <=? delta Cell9.scale r) = true
  /\ (delta Cell9.scale r <? Cell9.scale / 2) = true
  /\ delta Cell9.scale 0 = - Cell9.scale / 2.
Proof.
  intros Hr. destruct (delta_in_window r Hr) as [Hlo Hhi].
  split; [reflexivity|]. split; [|split].
  - rewrite leb_spec, Prim2SF_low. exact Hlo.
  - rewrite ltb_spec, Prim2SF_high. exact Hhi.
  - reflexivity.
Qed.

(** Either zero as a raw draw leaves the lower end of the window. *)
Lemma delta_at_zero (r : float) :
  (r =? 0) = true -> delta Cell9.scale r = - (Cell9.scale / 2).
Proof.
  intros H. rewrite eqb_spec, F64.Prim2SF_zero in H.
  assert (E : Prim2SF r = Prim2SF 0 \/ Prim2SF r = Prim2SF (-0)).
  { destruct (Prim2SF r) as [[|]|[|]| |[|] m e]; try discriminate;
      [right | left]; reflexivity. }
  destruct E as [E|E]; apply Prim2SF_inj in E; subst r; reflexivity.
Qed.


End ProposalWindow.

(** ** Quotients of densities *)

Module Quotient.

Import Magnitude Rounding.

Local Open Scope Z_scope.

Lemma shr_general (mrs : shr_record) (e n : Z) :
  0 <= shr_m mrs -> 0 <= n ->
  snd (shr mrs e n) = e + n /\ shr_m (fst (shr mrs e n)) = shr_m mrs / 2 ^ n.
Proof.
  intros Hm Hn. unfold shr.
  destruct n as [|p|p]; [| |lia]; cbn [fst snd].
  - rewrite Z.add_0_r, Z.pow_0_r, Z.div_1_r. split; reflexivity.
  - rewrite iter_pos_iter, Pos2Nat.inj_iter.
    change (nat_rect (fun _ => shr_record) ?x (fun _ => shr_1) ?k)
      with (Nat.iter k shr_1 x).
    rewrite shr_nat_m by exact Hm. rewrite positive_nat_Z.
    split; reflexivity.
Qed.

Lemma shr_record_of_loc_m (m : Z) (l : location) :
  shr_m (shr_record_of_loc m l) = m.
Proof. destruct l as [|[ | | ]]; reflexivity. Qed.

(** Rounding a mantissa of at least 53 digits, in the normal range, gives
    a normal number whose exponent is not below the canonical one, or an
    infinity. *)
Lemma binary_round_aux_above (s : bool) (q : positive) (e : Z) (l : location) :
  53 <= Z.pos (digits2_pos q) ->
  -1074 <= Z.pos (digits2_pos q) + e - 53 ->
  match binary_round_aux prec emax s (Z.pos q) e l with
  | S754_infinity _ => True
  | S754_finite _ m3 e3 =>
      Z.pos (digits2_pos q) + e - 53 <= e3 /\ 2 ^ 52 <= Z.pos m3
  | _ => False
  end.
Proof.
  intros Hd Hn.
  pose proof (digits2_pos_bounds q) as D.
  set (d := Z.pos (digits2_pos q)) in *.
  unfold binary_round_aux, shr_fexp. cbn [Zdigits2]. fold d.
  rewrite fexp_eq. replace (Z.max (d + e - 53) (-1074) - e) with (d - 53) by lia.
  destruct (shr_general (shr_record_of_loc (Z.pos q) l) e (d - 53))
    as [S1 S2]; [rewrite shr_record_of_loc_m; lia | lia |].
  rewrite shr_record_of_loc_m in S2.
  destruct (shr (shr_record_of_loc (Z.pos q) l) e (d - 53)) as [mrs1 e1].
  cbn [fst snd] in S1, S2. subst e1.
  destruct (round_nearest_even_range mrs1) as [[R1 R2] _].
  set (m2 := round_nearest_even (shr_m mrs1) (loc_of_shr_record mrs1)) in *.
  (* the truncated mantissa has exactly 53 digits *)
  assert (Hp : 0 < 2 ^ (d - 53)) by (apply Z.pow_pos_nonneg; lia).
  assert (Hsplit : 2 ^ (d - 1) = 2 ^ 52 * 2 ^ (d - 53)).
  { rewrite <- pow2_split by lia. f_equal. lia. }
  assert (Hm1 : 2 ^ 52 <= shr_m mrs1).
  { rewrite S2. apply Z.div_le_lower_bound; [lia|]. lia. }
  assert (Hm2 : 2 ^ 52 <= m2) by lia.
  assert (E52 : 2 ^ 52 = 4503599627370496) by reflexivity.
  destruct m2 as [|p2|p2] eqn:Em2; try lia.
  cbn [Zdigits2]. rewrite fexp_eq.
  pose proof (digits2_pos_bounds p2) as D2.
  set (d2 := Z.pos (digits2_pos p2)) in *.
  assert (Hd2 : 53 <= d2).
  { assert (52 < d2); [|lia]. apply pow2_lt_exp; lia. }
  replace (Z.max (d2 + (e + (d - 53)) - 53) (-1074) - (e + (d - 53)))
    with (d2 - 53) by lia.
  destruct (shr_general (shr_record_of_loc (Z.pos p2) loc_Exact)
              (e + (d - 53)) (d2 - 53)) as [T1 T2]; [simpl; lia | lia |].
  destruct (shr (shr_record_of_loc (Z.pos p2) loc_Exact) (e + (d - 53)) (d2 - 53))
    as [mrs2 e3].
  cbn [fst snd shr_record_of_loc shr_m] in T1, T2. subst e3.
  assert (Hp2 : 0 < 2 ^ (d2 - 53)) by (apply Z.pow_pos_nonneg; lia).
  assert (Hsplit2 : 2 ^ (d2 - 1) = 2 ^ 52 * 2 ^ (d2 - 53)).
  { rewrite <- pow2_split by lia. f_equal. lia. }
  assert (Hm3 : 2 ^ 52 <= shr_m mrs2).
  { rewrite T2. apply Z.div_le_lower_bound; [lia|]. lia. }
  destruct (shr_m mrs2) as [|m3|m3]; try lia.
  destruct (e + (d - 53) + (d2 - 53) <=? emax - prec); [|exact I].
  split; lia.
Qed.

Lemma leb_cases (mc mp : positive) (ec ep : Z) :
  SFleb (S754_finite false mc ec) (S754_finite false mp ep) = true ->
  ec < ep \/ (ec = ep /\ Z.pos mc <= Z.pos mp).
Proof.
  unfold SFleb, SFcompare.
  destruct (Z.compare_spec ec ep) as [E|E|E]; [|left; exact E|discriminate].
  destruct (PosDef.Pos.compare_cont Eq mc mp) eqn:F; try discriminate;
    intros _; right; (split; [exact E|]).
  - assert (F' : (mc ?= mp)%positive = Eq) by exact F.
    apply Pos.compare_eq_iff in F'. subst mp. lia.
  - assert (F' : (mc < mp)%positive) by exact F. lia.
Qed.

Lemma canonical_digits (m : positive) (e : Z) :
  bounded prec emax m e = true ->
  Z.pos (digits2_pos m) <= 53 /\ -1074 <= e
  /\ (-1074 < e -> Z.pos (digits2_pos m) = 53).
Proof.
  intros HB. apply andb_prop in HB. destruct HB as [HB _].
  apply Z.eqb_eq in HB. rewrite fexp_eq in HB. lia.
Qed.

(** The quotient of a finite positive number by one that is not larger is
    not below 1. *)
Lemma SFdiv_at_least_one (mp : positive) (ep : Z) (mc : positive) (ec : Z) :
  bounded prec emax mp ep = true ->
  bounded prec emax mc ec = true ->
  SFleb (S754_finite false mc ec) (S754_finite false mp ep) = true ->
  SFltb (SF64div (S754_finite false mp ep) (S754_finite false mc ec))
    (S754_finite false 4503599627370496 (-52)) = false.
Proof.
  intros Bp Bc Hle. apply leb_cases in Hle.
  apply canonical_digits in Bp, Bc.
  pose proof (digits2_pos_bounds mp) as Dp.
  pose proof (digits2_pos_bounds mc) as Dc.
  unfold SF64div, SFdiv, SFdiv_core_binary. cbn [Zdigits2 xorb].
  set (d1 := Z.pos (digits2_pos mp)) in *.
  set (d2 := Z.pos (digits2_pos mc)) in *.
  assert (Hd1 : 0 < d1) by (subst d1; lia).
  assert (Hd2 : 0 < d2) by (subst d2; lia).
  assert (HD : d2 + ec <= d1 + ep).
  { destruct Hle as [Hlt|[Heq Hm]]; [lia|].
    assert (d2 - 1 < d1); [|lia].
    apply pow2_lt_exp; lia. }
  rewrite fexp_eq.
  replace (Z.min (Z.max (d1 + ep - (d2 + ec) - 53) (-1074)) (ep - ec))
    with (d1 + ep - (d2 + ec) - 53) by lia.
  replace (ep - ec - (d1 + ep - (d2 + ec) - 53)) with (d2 - d1 + 53) by lia.
  set (e' := d1 + ep - (d2 + ec) - 53).
  assert (Hs : 0 < d2 - d1 + 53) by lia.
  destruct (d2 - d1 + 53) as [|sh|sh] eqn:Esh; try lia.
  rewrite Z.shiftl_mul_pow2 by lia. rewrite <- Esh.
  pose proof (Z_div_mod (Z.pos mp * 2 ^ (d2 - d1 + 53)) (Z.pos mc) eq_refl) as Hdiv.
  destruct (Z.div_eucl (Z.pos mp * 2 ^ (d2 - d1 + 53)) (Z.pos mc)) as [q r].
  destruct Hdiv as [Hq Hr].
  (* the numerator, between powers of two *)
  assert (P1 : 2 ^ (d1 - 1 + (d2 - d1 + 53)) = 2 ^ 52 * 2 ^ d2).
  { rewrite <- pow2_split by lia. f_equal. lia. }
  assert (P2 : 2 ^ (d1 + (d2 - d1 + 53)) = 2 ^ 54 * 2 ^ (d2 - 1)).
  { rewrite <- pow2_split by lia. f_equal. lia. }
  rewrite pow2_split in P1, P2 by lia.
  assert (Hsp : 0 < 2 ^ (d2 - d1 + 53)) by (apply Z.pow_pos_nonneg; lia).
  assert (E52 : 2 ^ 52 = 4503599627370496) by reflexivity.
  assert (E53 : 2 ^ 53 = 9007199254740992) by reflexivity.
  assert (E54 : 2 ^ 54 = 18014398509481984) by reflexivity.
  assert (Hq52 : 2 ^ 52 <= q) by nia.
  assert (Hq54 : q < 2 ^ 54) by nia.
  destruct q as [|qp|qp]; try lia.
  pose proof (digits2_pos_bounds qp) as Dq.
  set (dq := Z.pos (digits2_pos qp)) in *.
  assert (Hdq : 53 <= dq).
  { assert (52 < dq); [|lia]. apply pow2_lt_exp; lia. }
  assert (Hsum : 54 <= d1 + ep - (d2 + ec) + dq).
  { destruct (Z.eq_dec (d1 + ep) (d2 + ec)) as [E0|E0]; [|lia].
    assert (53 < dq); [|lia]. apply pow2_lt_exp; [lia|].
    apply Z.le_lt_trans with (Z.pos qp); [|lia].
    destruct Hle as [Hlt|[Heq Hm]]; [lia|].
    assert (d1 = d2) by lia.
    replace (d2 - d1 + 53) with 53 in * by lia. nia. }
  pose proof (binary_round_aux_above false qp e'
                (new_location (Z.pos mc) r) Hdq ltac:(subst e' dq; lia)) as Hab.
  fold dq in Hab.
  pose proof (F64.binary_round_aux_sign false (Z.pos qp) e'
                (new_location (Z.pos mc) r) ltac:(lia)) as Hsg.
  destruct (binary_round_aux prec emax false (Z.pos qp) e'
              (new_location (Z.pos mc) r)) as [s3|s3| |s3 m3 e3];
    try contradiction; injection Hsg as ->.
  - reflexivity.
  - destruct Hab as [He3 Hm3].
    destruct (SFltb (S754_finite false m3 e3)
                (S754_finite false 4503599627370496 (-52))) eqn:Hlt;
      [|reflexivity].
    apply below_one_cases in Hlt. subst e'. lia.
Qed.

End Quotient.

(** A density at the proposal that is not below a positive density at the
    current position gives the clipped probability 1. *)
Lemma clipped_uphill (tp tc : float) :
  (0 <? tc) = true -> (tc <=? tp) = true -> clipped tp tc = 1.
Proof.
  intros Hc Hle. unfold clipped, Py.min.
  rewrite ltb_spec in Hc. rewrite leb_spec in Hle.
  rewrite F64.Prim2SF_zero in Hc.
  pose proof (Prim2SF_valid tp) as Vp. pose proof (Prim2SF_valid tc) as Vc.
  rewrite ltb_spec, div_spec, F64.Prim2SF_one.
  destruct (Prim2SF tc) as [[|]|[|]| |[|] mc ec]; try discriminate;
    destruct (Prim2SF tp) as [[|]|[|]| |[|] mp ep]; try discriminate;
    try reflexivity.
  rewrite (Quotient.SFdiv_at_least_one mp ep mc ec Vp Vc Hle). reflexivity.
Qed.

Section Uphill.

Variable exn : Type.
Variable ZeroDivisionError : exn.
Variable target_dist : float -> result exn number.
Variable scale : float.

(** X2: a proposal whose density is at least the positive density at the
    current position is accepted by every draw below 1. *)
Theorem uphill_accepted (st : chain) (r u : float) (tp tc : number) :
  target_dist (x_proposal scale st r) = Val tp ->
  target_dist (x_current st) = Val tc ->
  (0 <? value tc) = true -> (value tc <=? value tp) = true -> (u <? 1) = true ->
  acceptance exn ZeroDivisionError tp tc = Val 1
  /\ step exn ZeroDivisionError target_dist scale st r u
     = Val (moved scale st r).
Proof.
  intros Hp Hc Pc Hle Hu.
  pose proof (clipped_uphill (value tp) (value tc) Pc Hle) as Ha.
  pose proof (divides_positive tp tc Pc) as D.
  split; [rewrite acceptance_cases, D, Ha; reflexivity|].
  apply step_accepted.
  rewrite (accepts_val exn ZeroDivisionError target_dist scale st r u tp tc Hp Hc), D, Ha, Hu.
  reflexivity.
Qed.

End Uphill.

(** ** Division by a zero density, NaN densities, negative densities *)

Section EdgeFacts.

Ltac to_spec :=
  rewrite ?ltb_spec, ?leb_spec, ?eqb_spec, ?classify_spec in *;
  rewrite ?F64.Prim2SF_one, ?F64.Prim2SF_zero in *.

Ltac cases x :=
  destruct (Prim2SF x) as [[|]|[|]| |[|] ? ?];
  simpl F64.sign_of in *; try discriminate.

Lemma min_one_infinity (x : float) :
  Prim2SF x = S754_infinity false -> Py.min 1 x = 1.
Proof. intros H. unfold Py.min. rewrite ltb_spec, H. reflexivity. Qed.

Lemma classify_pzero (t : float) : classify t = PZero -> Prim2SF t = S754_zero false.
Proof.
  rewrite classify_spec. unfold SF64classify, SFclassify.
  destruct (Prim2SF t) as [[|]|[|]| |[|] m e]; try discriminate; try reflexivity;
    destruct (_ =? _)%Z; discriminate.
Qed.

Lemma classify_nzero (t : float) : classify t = NZero -> Prim2SF t = S754_zero true.
Proof.
  rewrite classify_spec. unfold SF64classify, SFclassify.
  destruct (Prim2SF t) as [[|]|[|]| |[|] m e]; try discriminate; try reflexivity;
    destruct (_ =? _)%Z; discriminate.
Qed.

(** Over a positive zero the quotient is [+inf], [-inf] or a NaN by the sign
    of the numerator, and only [-inf] fails the test. *)
Lemma test_over_pzero (tp tc u : float) :
  classify tc = PZero -> NumPy.unit_draw u ->
  (u <? clipped tp tc) = negb (tp <? 0).
Proof.
  intros Hc [Hu0 Hu1]. apply classify_pzero in Hc. unfold clipped.
  pose proof (div_spec tp tc) as D. rewrite Hc in D.
  rewrite (ltb_spec tp 0), F64.Prim2SF_zero.
  destruct (Prim2SF tp) as [sp|sp| |[|] mp ep];
    try (rewrite (min_one_nan _ D), Hu1; reflexivity);
    try (destruct sp);
    try (rewrite (min_one_infinity _ D), Hu1; reflexivity);
    (assert (Hs : F64.sign_of (Prim2SF (tp / tc)) = Some true)
       by (rewrite D; reflexivity));
    rewrite (min_one_signed _ Hs), (draw_not_below_signed _ _ Hu0 Hs);
    reflexivity.
Qed.

Lemma test_over_nzero (tp tc u : float) :
  classify tc = NZero -> NumPy.unit_draw u ->
  (u <? clipped tp tc) = negb (0 <? tp).
Proof.
  intros Hc [Hu0 Hu1]. apply classify_nzero in Hc. unfold clipped.
  pose proof (div_spec tp tc) as D. rewrite Hc in D.
  rewrite (ltb_spec 0 tp), F64.Prim2SF_zero.
  destruct (Prim2SF tp) as [sp|sp| |[|] mp ep];
    try (rewrite (min_one_nan _ D), Hu1; reflexivity);
    try (destruct sp);
    try (rewrite (min_one_infinity _ D), Hu1; reflexivity);
    (assert (Hs : F64.sign_of (Prim2SF (tp / tc)) = Some true)
       by (rewrite D; reflexivity));
    rewrite (min_one_signed _ Hs), (draw_not_below_signed _ _ Hu0 Hs);
    reflexivity.
Qed.

Lemma clipped_nan_current (tp tc : float) :
  (tc =? tc) = false -> clipped tp tc = 1.
Proof.
  intros H. apply min_one_nan. rewrite div_spec.
  assert (Hc : Prim2SF tc = S754_nan).
  { rewrite eqb_spec in H. destruct (Prim2SF tc) as [s|s| |s m e]; try reflexivity.
    - discriminate.
    - destruct s; discriminate.
    - exfalso. revert H. unfold SFeqb, SFcompare.
      rewrite Z.compare_refl, Pos.compare_cont_refl. destruct s; discriminate. }
  rewrite Hc. destruct (Prim2SF tp) as [s|s| |s m e]; reflexivity.
Qed.

(** A negative density over a positive finite one has the sign bit set. *)
Lemma test_negative_over_positive (tp tc u : float) :
  (tp <? 0) = true -> (0 <? tc) = true -> (tc <? infinity) = true ->
  (0 <=? u) = true -> (u <? clipped tp tc) = false.
Proof.
  intros Hp Hc Hf Hu.
  assert (Hs : F64.sign_of (Prim2SF (tp / tc)) = Some true).
  { rewrite div_spec. rewrite ltb_spec in Hp, Hc, Hf.
    rewrite F64.Prim2SF_zero in Hp, Hc.
    change (Prim2SF infinity) with (S754_infinity false) in Hf.
    destruct (Prim2SF tp) as [[|]|[|]| |[|] mp ep]; try discriminate;
      destruct (Prim2SF tc) as [[|]|[|]| |[|] mc ec]; try discriminate;
      try reflexivity.
    exact (F64.SFdiv_finite_sign true _ _ false _ _). }
  unfold clipped. rewrite (min_one_signed _ Hs).
  apply draw_not_below_signed; assumption.
Qed.

End EdgeFacts.

Section EdgeSteps.

Variable exn : Type.
Variable ZeroDivisionError : exn.
Variable target_dist : float -> result exn number.
Variable scale : float.

Local Abbreviation acceptance := (acceptance exn ZeroDivisionError).
Local Abbreviation accepts := (accepts exn ZeroDivisionError target_dist scale).
Local Abbreviation step := (step exn ZeroDivisionError target_dist scale).
Local Abbreviation run := (run exn ZeroDivisionError target_dist scale).
Local Abbreviation x_proposal := (x_proposal scale).
Local Abbreviation moved := (moved scale).
Local Abbreviation accepted_proposals :=
  (accepted_proposals ZeroDivisionError target_dist scale).

Lemma classify_zero (t : float) :
  classify t = PZero \/ classify t = NZero -> (t =? 0) = true.
Proof.
  intros [H|H]; [apply classify_pzero in H | apply classify_nzero in H];
    rewrite eqb_spec, H; reflexivity.
Qed.

(** Over a zero, two Python numbers do not divide; any other pair does. *)
Lemma divides_by_zero (tp tc : number) :
  (value tc =? 0) = true ->
  divides tp tc = match tp, tc with
                  | PyNum _, PyNum _ => false
                  | _, _ => true
                  end.
Proof.
  intros H. destruct tp as [x|x], tc as [y|y]; try reflexivity.
  simpl in *. rewrite H. reflexivity.
Qed.

(** X4: at a position whose density is the positive zero the ratio divides
    by zero.  Two Python numbers raise [ZeroDivisionError]; when one of
    the two densities is a NumPy scalar, for every draw of [0, 1) the
    proposal is accepted unless the density there is negative. *)
Theorem zero_current_step (st : chain) (r u : float) (tp tc : number) :
  target_dist (x_proposal st r) = Val tp ->
  target_dist (x_current st) = Val tc ->
  classify (value tc) = PZero -> NumPy.unit_draw u ->
  step st r u
  = match tp, tc with
    | PyNum _, PyNum _ => Raise ZeroDivisionError
    | _, _ => Val (if value tp <? 0 then st else moved st r)
    end.
Proof.
  intros Hp Hc Hz Hu.
  pose proof (accepts_val exn ZeroDivisionError target_dist scale st r u tp tc Hp Hc) as Ha.
  rewrite (divides_by_zero tp tc (classify_zero _ (or_introl Hz))) in Ha.
  rewrite (test_over_pzero (value tp) (value tc) u Hz Hu) in Ha.
  destruct tp as [x|x], tc as [y|y];
    try (apply step_raised, Ha);
    simpl value in *; destruct (x <? 0); simpl in Ha;
    solve [apply step_rejected, Ha | apply step_accepted, Ha].
Qed.

(** X5: at a position whose density is the negative zero, two Python
    numbers raise as well; when one of the two densities is a NumPy scalar
    the signs swap: the proposal is accepted unless the density there is
    positive. *)
Theorem negative_zero_current_step (st : chain) (r u : float) (tp tc : number) :
  target_dist (x_proposal st r) = Val tp ->
  target_dist (x_current st) = Val tc ->
  classify (value tc) = NZero -> NumPy.unit_draw u ->
  step st r u
  = match tp, tc with
    | PyNum _, PyNum _ => Raise ZeroDivisionError
    | _, _ => Val (if 0 <? value tp then st else moved st r)
    end.
Proof.
  intros Hp Hc Hz Hu.
  pose proof (accepts_val exn ZeroDivisionError target_dist scale st r u tp tc Hp Hc) as Ha.
  rewrite (divides_by_zero tp tc (classify_zero _ (or_intror Hz))) in Ha.
  rewrite (test_over_nzero (value tp) (value tc) u Hz Hu) in Ha.
  destruct tp as [x|x], tc as [y|y];
    try (apply step_raised, Ha);
    simpl value in *; destruct (0 <? x); simpl in Ha;
    solve [apply step_rejected, Ha | apply step_accepted, Ha].
Qed.

(** X6: when either density is a NaN and the division returns, which it
    does unless both densities are Python numbers and the divisor is zero,
    the acceptance probability is 1 and every draw below 1 accepts; in the
    remaining case the iteration raises [ZeroDivisionError]. *)
Theorem nan_density_step (st : chain) (r u : float) (tp tc : number) :
  target_dist (x_proposal st r) = Val tp ->
  target_dist (x_current st) = Val tc ->
  is_nan (value tp) || is_nan (value tc) = true -> (u <? 1) = true ->
  if divides tp tc
  then acceptance tp tc = Val 1 /\ step st r u = Val (moved st r)
  else acceptance tp tc = Raise ZeroDivisionError
       /\ step st r u = Raise ZeroDivisionError.
Proof.
  intros Hp Hc Hn Hu.
  assert (H1 : clipped (value tp) (value tc) = 1).
  { unfold is_nan in Hn. apply orb_true_iff in Hn.
    destruct Hn as [Hn|Hn]; apply negb_true_iff in Hn.
    - apply clipped_nan_proposal, Hn.
    - apply clipped_nan_current, Hn. }
  pose proof (accepts_val exn ZeroDivisionError target_dist scale st r u tp tc Hp Hc) as Ha.
  rewrite acceptance_cases.
  destruct (divides tp tc).
  - rewrite H1 in *. split; [reflexivity|].
    apply step_accepted. rewrite Ha, Hu. reflexivity.
  - split; [reflexivity | apply step_raised, Ha].
Qed.

(** X3: a proposal of negative density is never accepted from a position of
    positive finite density. *)
Theorem negative_proposal_rejected (st : chain) (r u : float) (tp tc : number) :
  target_dist (x_proposal st r) = Val tp ->
  target_dist (x_current st) = Val tc ->
  (value tp <? 0) = true -> (0 <? value tc) = true ->
  (value tc <? infinity) = true ->
  (0 <=? u) = true ->
  step st r u = Val st.
Proof.
  intros Hp Hc Np Pc Fc Hu.
  apply step_rejected.
  rewrite (accepts_val exn ZeroDivisionError target_dist scale st r u tp tc Hp Hc), (divides_positive tp tc Pc).
  f_equal. apply test_negative_over_positive; assumption.
Qed.

Lemma accepted_proposals_length (draws : list (float * float)) :
  forall x, (length (accepted_proposals draws x) <= length draws)%nat.
Proof.
  induction draws as [|[r u] rest IH]; intros x; simpl; [lia|].
  destruct (Sampler.accepts exn ZeroDivisionError target_dist scale _ r u)
    as [[|]|e]; simpl.
  - specialize (IH (Sampler.x_proposal scale
                      {| x_current := x; x_target := [] |} r)). lia.
  - specialize (IH x). lia.
  - lia.
Qed.

(** X7: a run of [n] iterations appends at most [n] records, and keeps the
    records it started with in front, also when it stops on an
    exception. *)
Theorem records_bounded (draws : list (float * float)) (st : chain) :
  exists emitted,
    x_target (fst (run draws st)) = x_target st ++ emitted
    /\ (length emitted <= length draws)%nat.
Proof.
  exists (accepted_proposals draws (x_current st)). split.
  - apply run_records.
  - apply accepted_proposals_length.
Qed.

(** X8: running the iterations of [pre] and then those of [post] is running
    them in one loop; if [pre] stops on an exception, [post] does not run. *)
Theorem run_append (pre post : list (float * float)) :
  forall st,
    run (pre ++ post) st
    = match run pre st with
      | (st', None) => run post st'
      | (st', Some e) => (st', Some e)
      end.
Proof.
  induction pre as [|[r u] pre IH]; intros st.
  - reflexivity.
  - simpl app. rewrite !run_cons.
    destruct (step st r u) as [st1|e]; [apply IH | reflexivity].
Qed.

End EdgeSteps.

(** ** Negation, and the sign symmetry of the notebook's target *)

Module Negation.

Lemma binary_round_aux_opp (s : bool) (m e : Z) (l : location) :
  binary_round_aux prec emax (negb s) m e l
  = SFopp (binary_round_aux prec emax s m e l).
Proof.
  unfold binary_round_aux.
  destruct (shr_fexp prec emax m e l) as [mrs1 e1].
  destruct (shr_fexp prec emax _ e1 loc_Exact) as [mrs2 e2].
  destruct (shr_m mrs2); try reflexivity.
  destruct (e2 <=? emax - prec)%Z; reflexivity.
Qed.

Lemma SFmul_opp_l (x y : spec_float) :
  SF64mul (SFopp x) y = SFopp (SF64mul x y).
Proof.
  destruct x as [sx|sx| |sx mx ex], y as [sy|sy| |sy my ey]; simpl;
    try reflexivity; try (destruct sx, sy; reflexivity).
  rewrite <- binary_round_aux_opp. destruct sx, sy; reflexivity.
Qed.

Lemma SFmul_opp_r (x y : spec_float) :
  SF64mul x (SFopp y) = SFopp (SF64mul x y).
Proof.
  destruct x as [sx|sx| |sx mx ex], y as [sy|sy| |sy my ey]; simpl;
    try reflexivity; try (destruct sx, sy; reflexivity).
  rewrite <- binary_round_aux_opp. destruct sx, sy; reflexivity.
Qed.

Lemma SFopp_involutive (x : spec_float) : SFopp (SFopp x) = x.
Proof. destruct x as [s|s| |s m e]; simpl; rewrite ?negb_involutive; reflexivity. Qed.

Lemma mul_opp_l (a b : float) : (- a) * b = - (a * b).
Proof.
  apply Prim2SF_inj. rewrite mul_spec, !opp_spec, mul_spec. apply SFmul_opp_l.
Qed.

Lemma mul_opp_r (a b : float) : a * (- b) = - (a * b).
Proof.
  apply Prim2SF_inj. rewrite mul_spec, !opp_spec, mul_spec. apply SFmul_opp_r.
Qed.

Lemma opp_involutive (a : float) : - - a = a.
Proof. apply Prim2SF_inj. rewrite !opp_spec. apply SFopp_involutive. Qed.

Lemma sq_opp (a : float) : (- a) * (- a) = a * a.
Proof. rewrite mul_opp_l, mul_opp_r. apply opp_involutive. Qed.

Lemma abs_opp (a : float) : abs (- a) = abs a.
Proof.
  apply Prim2SF_inj. rewrite !abs_spec, opp_spec.
  destruct (Prim2SF a) as [s|s| |s m e]; reflexivity.
Qed.

Lemma eqb_zero_opp (a : float) : (- a =? 0) = (a =? 0).
Proof.
  rewrite !eqb_spec, opp_spec, F64.Prim2SF_zero.
  destruct (Prim2SF a) as [[|]|[|]| |[|] m e]; reflexivity.
Qed.

Lemma is_nan_spec (a : float) : is_nan a = true <-> Prim2SF a = S754_nan.
Proof.
  unfold is_nan. rewrite eqb_spec.
  destruct (Prim2SF a) as [s|s| |s m e]; simpl; split; try discriminate;
    try reflexivity.
  - destruct s; discriminate.
  - unfold SFeqb, SFcompare.
    rewrite Z.compare_refl, Pos.compare_cont_refl. destruct s; discriminate.
Qed.

(** The negation of a NaN is the NaN. *)
Lemma opp_nan (a : float) : is_nan a = true -> - a = a.
Proof.
  intros H. apply is_nan_spec in H.
  apply Prim2SF_inj. rewrite opp_spec, H. reflexivity.
Qed.

Lemma is_nan_opp (a : float) : is_nan (- a) = is_nan a.
Proof.
  destruct (is_nan a) eqn:E.
  - rewrite (opp_nan a E). exact E.
  - destruct (is_nan (- a)) eqn:E'; [|reflexivity].
    apply is_nan_spec in E'. rewrite opp_spec in E'.
    assert (H : Prim2SF a = S754_nan)
      by (destruct (Prim2SF a) as [s|s| |s m e]; try discriminate; reflexivity).
    apply is_nan_spec in H. congruence.
Qed.

Lemma is_infinity_opp (a : float) : is_infinity (- a) = is_infinity a.
Proof. unfold is_infinity. rewrite abs_opp. reflexivity. Qed.

End Negation.

Section OddTarget.

Variable exn : Type.
Variable OverflowError : exn.
Variables np_sin np_exp : float -> float.
Variable c_pow : float -> float -> float.

(** The C library's sine is an odd function, and its square an even
    one. *)
Hypothesis sin_odd : forall y, np_sin (- y) = - np_sin y.
Hypothesis pow_even : forall y, c_pow (- y) 2 = c_pow y 2.

(** [x**2] does not see the sign of [x]. *)
Lemma float_sq_opp (x : float) :
  Cell8.float_sq exn OverflowError c_pow (- x)
  = Cell8.float_sq exn OverflowError c_pow x.
Proof.
  unfold Cell8.float_sq.
  rewrite Negation.is_nan_opp, Negation.is_infinity_opp,
    Negation.eqb_zero_opp, Negation.abs_opp.
  destruct (is_nan x) eqn:E; [|reflexivity].
  rewrite (Negation.opp_nan x E). reflexivity.
Qed.

(** X9: the notebook's target is an odd function: where it returns, its
    value at [-x] is the negation of its value at [x], and where [x**2]
    overflows it raises at both. *)
Theorem target_dist_odd (x : float) :
  Cell8.target_dist exn OverflowError np_sin np_exp c_pow (- x)
  = opposite (Cell8.target_dist exn OverflowError np_sin np_exp c_pow x).
Proof.
  unfold Cell8.target_dist. rewrite float_sq_opp.
  destruct (Cell8.float_sq exn OverflowError c_pow x) as [sq|e]; simpl;
    [|reflexivity].
  unfold Cell8.np_sq.
  rewrite Negation.mul_opp_r, !sin_odd, pow_even, !Negation.mul_opp_l.
  reflexivity.
Qed.

End OddTarget.

(** ** Records stay where the density is positive *)

Section Support.

Variable exn : Type.
Variable ZeroDivisionError : exn.
Variable target_dist : float -> result exn number.
Variable scale : float.

Local Abbreviation accepts := (accepts exn ZeroDivisionError target_dist scale).
Local Abbreviation step := (step exn ZeroDivisionError target_dist scale).
Local Abbreviation run := (run exn ZeroDivisionError target_dist scale).
Local Abbreviation x_proposal := (x_proposal scale).
Local Abbreviation moved := (moved scale).
Local Abbreviation in_support := (in_support target_dist).

(** A finite density is positive, zero or negative. *)
Lemma finite_value_cases (t : float) :
  finite_value t = true ->
  ((0 <? t) = true /\ (t <? infinity) = true)
  \/ (t =? 0) = true \/ (t <? 0) = true.
Proof.
  unfold finite_value. rewrite classify_spec, !ltb_spec, eqb_spec.
  rewrite F64.Prim2SF_zero. change (Prim2SF infinity) with (S754_infinity false).
  unfold SF64classify, SFclassify.
  destruct (Prim2SF t) as [[|]|[|]| |[|] m e]; try discriminate; intros _;
    try (left; split; reflexivity);
    try (right; left; reflexivity);
    try (right; right; reflexivity).
Qed.

(** From a position of positive finite density, only a proposal of positive
    density passes the test, when its density is finite. *)
Lemma accepted_is_positive (tp tc u : float) :
  finite_value tp = true ->
  (0 <? tc) = true -> (tc <? infinity) = true -> (0 <=? u) = true ->
  (u <? clipped tp tc) = true -> (0 <? tp) = true.
Proof.
  intros Fp Pc Fc Hu Ha.
  destruct (finite_value_cases tp Fp) as [[Hp _]|[Hz|Hn]]; [exact Hp| |].
  - destruct (clipped_zero_pos tp tc Hz Pc) as [E Z0].
    rewrite E, (draw_not_below_zero u _ Hu Z0) in Ha. discriminate.
  - rewrite (test_negative_over_positive tp tc u Hn Pc Fc Hu) in Ha.
    discriminate.
Qed.

Lemma finite_positive (v : float) :
  finite_value v = true -> (0 <? v) = true -> (v <? infinity) = true.
Proof.
  intros F P. destruct (finite_value_cases v F) as [[_ H]|[H|H]]; [exact H| |].
  - exfalso. revert P H. rewrite ltb_spec, eqb_spec, F64.Prim2SF_zero.
    destruct (Prim2SF v) as [[|]|[|]| |[|] m e]; discriminate.
  - exfalso. revert P H. rewrite !ltb_spec, F64.Prim2SF_zero.
    destruct (Prim2SF v) as [[|]|[|]| |[|] m e]; discriminate.
Qed.

Lemma support_kept (draws : list (float * float)) :
  (forall x v, target_dist x = Val v -> finite_value (value v) = true) ->
  Forall (fun d => (0 <=? snd d) = true) draws ->
  forall x, in_support x ->
    Forall in_support
      (accepted_proposals ZeroDivisionError target_dist scale draws x)
    /\ in_support
         (last (accepted_proposals ZeroDivisionError target_dist scale draws x) x).
Proof.
  intros Hfin Hdraws.
  induction Hdraws as [|[r u] rest Hu _ IH]; intros x Hx.
  - simpl. split; [constructor | exact Hx].
  - simpl in Hu. simpl accepted_proposals.
    set (here := {| x_current := x; x_target := [] |}).
    destruct (accepts here r u) as [[|]|e] eqn:Ea.
    + destruct (accepts_returns _ _ _ _ _ _ _ _ Ea)
        as [tp [tc [Hp [Hc [_ Hb]]]]].
      destruct Hx as [v [Hv Pv]].
      assert (tc = v) as -> by (simpl in Hc; congruence).
      assert (Hx' : in_support (x_proposal here r)).
      { exists tp. split; [exact Hp|].
        apply (accepted_is_positive (value tp) (value v) u);
          eauto using finite_positive. }
      destruct (IH _ Hx') as [I1 I2]. split.
      * constructor; assumption.
      * rewrite last_cons. exact I2.
    + apply IH, Hx.
    + split; [constructor | exact Hx].
Qed.


(** X12: under a constant strictly positive density every iteration moves,
    so the position a run ends on is the starting position with the
    perturbations of all its iterations subtracted in turn. *)
Theorem constant_target_random_walk (c : number) (draws : list (float * float)) :
  (forall x, target_dist x = Val c) -> (0 <? value c) = true ->
  Forall (fun d => (snd d <? 1) = true) draws ->
  forall st,
    x_current (fst (run draws st))
    = fold_left (fun x d => x - delta scale (fst d)) draws (x_current st)
    /\ snd (run draws st) = None.
Proof.
  intros Hc Pc. induction 1 as [|[r u] rest Hu _ IH]; intros st.
  - split; reflexivity.
  - simpl in Hu.
    pose proof (constant_accepts exn ZeroDivisionError target_dist scale c st r u Hc Pc Hu) as Ha.
    rewrite run_cons,
      (step_accepted exn ZeroDivisionError target_dist scale _ _ _ Ha).
    destruct (IH (moved st r)) as [I1 I2]. split; [|exact I2].
    rewrite I1. reflexivity.
Qed.

End Support.

(** ** The notebook's first iteration *)

Section NotebookStart.

Variables np_sin np_exp : float -> float.
Variable c_pow : float -> float -> float.

(** What the C library guarantees at zero. *)
Hypothesis sin_zero : np_sin 0 = 0.
Hypothesis exp_zero : np_exp (-0) = 1.
Hypothesis pow_zero : c_pow 0 2 = 0.

Lemma target_dist_zero : Cell9.target np_sin np_exp c_pow 0 = Val (NpNum 0).
Proof.
  unfold Cell9.target, Cell8.target_dist, Cell8.float_sq, Cell8.np_sq.
  change (is_nan 0) with false. change (is_infinity 0) with false.
  change (0 =? 0) with true. cbv iota. simpl bind.
  change (2 * 0) with 0.
  replace (np_exp _) with 1 by (symmetry; exact exp_zero).
  rewrite sin_zero, pow_zero. reflexivity.
Qed.

(** X10: the notebook's chain starts where its density is the NumPy zero, so
    its first iteration divides by zero without raising: whatever the raw
    draw, the proposal is recorded unless the density there is negative,
    and if [x**2] overflows at the proposal the loop stops on that
    exception. *)
Theorem first_iteration (r u : float) :
  NumPy.unit_draw u ->
  Cell9.loop np_sin np_exp c_pow [(r, u)]
  = match Cell9.target np_sin np_exp c_pow
            (x_proposal Cell9.scale Cell9.initial r) with
    | Val tp => (if value tp <? 0 then Cell9.initial
                 else moved Cell9.scale Cell9.initial r, None)
    | Raise e => (Cell9.initial, Some e)
    end.
Proof.
  intros Hu. unfold Cell9.loop. rewrite run_cons.
  set (target := Cell9.target np_sin np_exp c_pow).
  destruct (target (x_proposal Cell9.scale Cell9.initial r)) as [tp|e] eqn:Hp.
  - assert (Ha : accepts Examples.py_exn Examples.ZeroDivisionError target
                   Cell9.scale Cell9.initial r u
                 = Val (negb (value tp <? 0))).
    { rewrite (accepts_val _ _ target Cell9.scale Cell9.initial r u
                 tp (NpNum 0) Hp target_dist_zero).
      replace (divides tp (NpNum 0)) with true by (destruct tp; reflexivity).
      rewrite (test_over_pzero (value tp) (value (NpNum 0)) u eq_refl Hu).
      reflexivity. }
    destruct (value tp <? 0); simpl in Ha.
    + rewrite (step_rejected _ _ _ _ _ _ _ Ha). reflexivity.
    + rewrite (step_accepted _ _ _ _ _ _ _ Ha). reflexivity.
  - assert (Ha : accepts Examples.py_exn Examples.ZeroDivisionError target
                   Cell9.scale Cell9.initial r u = Raise e).
    { unfold Sampler.accepts. rewrite Hp. reflexivity. }
    rewrite (step_raised _ _ _ _ _ _ _ _ Ha). reflexivity.
Qed.

End NotebookStart.

Module MoreWorked.

Import Examples.

Local Abbreviation py_box := (python (exn := py_exn) box).
Local Abbreviation np_box := (numpy (exn := py_exn) box).
Local Abbreviation py_parabola := (python (exn := py_exn) parabola).
Local Abbreviation np_root := (numpy (exn := py_exn) root).
Local Abbreviation np_signed_zero := (numpy (exn := py_exn) signed_zero).
Local Abbreviation py_one := (python (exn := py_exn) one).



Lemma first_iteration_witness :
  Cell9.loop lib_sin lib_exp lib_pow [(0.25, 0.5)]
  = match Cell9.target lib_sin lib_exp lib_pow
            (x_proposal Cell9.scale Cell9.initial 0.25) with
    | Val tp => (if value tp <? 0 then Cell9.initial
                 else moved Cell9.scale Cell9.initial 0.25, None)
    | Raise e => (Cell9.initial, Some e)
    end.
Proof.
  apply (first_iteration lib_sin lib_exp lib_pow eq_refl eq_refl eq_refl
           0.25 0.5).
  split; reflexivity.
Defined.

Lemma uphill_accepted_witness :
  let tp := PyNum (parabola (x_proposal Cell9.scale near_zero 0)) in
  let tc := PyNum (parabola (x_current near_zero)) in
  acceptance py_exn ZeroDivisionError tp tc = Val 1
  /\ step py_exn ZeroDivisionError py_parabola Cell9.scale near_zero 0 0.5
     = Val (moved Cell9.scale near_zero 0).
Proof.
  intros tp tc.
  apply (uphill_accepted py_exn ZeroDivisionError py_parabola Cell9.scale
           near_zero 0 0.5 tp tc); reflexivity.
Defined.

Lemma zero_current_step_witness :
  step py_exn ZeroDivisionError np_box Cell9.scale outside 0 0.5
  = Val (if box (x_proposal Cell9.scale outside 0) <? 0 then outside
         else moved Cell9.scale outside 0).
Proof.
  apply (zero_current_step py_exn ZeroDivisionError np_box Cell9.scale
           outside 0 0.5
           (NpNum (box (x_proposal Cell9.scale outside 0)))
           (NpNum (box (x_current outside))));
    try reflexivity.
  split; reflexivity.
Defined.

Lemma negative_zero_current_step_witness :
  step py_exn ZeroDivisionError np_signed_zero Cell9.scale at_minus_one 0 0.5
  = Val (if 0 <? signed_zero (x_proposal Cell9.scale at_minus_one 0)
         then at_minus_one
         else moved Cell9.scale at_minus_one 0).
Proof.
  apply (negative_zero_current_step py_exn ZeroDivisionError np_signed_zero
           Cell9.scale at_minus_one 0 0.5
           (NpNum (signed_zero (x_proposal Cell9.scale at_minus_one 0)))
           (NpNum (signed_zero (x_current at_minus_one))));
    try reflexivity.
  split; reflexivity.
Defined.

Lemma nan_density_step_witness :
  acceptance py_exn ZeroDivisionError
    (NpNum (root (x_proposal Cell9.scale near_zero top_draw)))
    (NpNum (root (x_current near_zero))) = Val 1
  /\ step py_exn ZeroDivisionError np_root Cell9.scale near_zero top_draw 0.5
     = Val (moved Cell9.scale near_zero top_draw).
Proof.
  apply (nan_density_step py_exn ZeroDivisionError np_root Cell9.scale
           near_zero top_draw 0.5
           (NpNum (root (x_proposal Cell9.scale near_zero top_draw)))
           (NpNum (root (x_current near_zero)))); reflexivity.
Defined.

Lemma negative_proposal_rejected_witness :
  step py_exn ZeroDivisionError py_parabola Cell9.scale near_zero top_draw 0.5
  = Val near_zero.
Proof.
  apply (negative_proposal_rejected py_exn ZeroDivisionError py_parabola
           Cell9.scale near_zero top_draw 0.5
           (PyNum (parabola (x_proposal Cell9.scale near_zero top_draw)))
           (PyNum (parabola (x_current near_zero)))); reflexivity.
Defined.

Lemma proposal_window_witness :
  x_proposal Cell9.scale Cell9.initial 0.75
  = x_current Cell9.initial - delta Cell9.scale 0.75
  /\ (- Cell9.scale / 2 <=? delta Cell9.scale 0.75) = true
  /\ (delta Cell9.scale 0.75 <? Cell9.scale / 2) = true
  /\ delta Cell9.scale 0 = - Cell9.scale / 2.
Proof.
  apply (proposal_window Cell9.initial 0.75). split; reflexivity.
Defined.

Lemma target_dist_odd_witness :
  Cell9.target lib_sin lib_exp lib_pow (- 0.5)
  = opposite (Cell9.target lib_sin lib_exp lib_pow 0.5).
Proof.
  exact (target_dist_odd py_exn OverflowError lib_sin lib_exp lib_pow
           (fun y => eq_refl) Negation.sq_opp 0.5).
Defined.

Lemma box_finite (x : float) (v : number) :
  py_box x = Val v -> finite_value (value v) = true.
Proof.
  intros [= <-]. unfold box. destruct ((0 <=? x) && (x <=? 1)); reflexivity.
Qed.


Lemma constant_target_random_walk_witness :
  let draws := [(0, 0.5); (0.75, 0.25)] in
  x_current (fst (run py_exn ZeroDivisionError py_one Cell9.scale draws
                    Cell9.initial))
  = fold_left (fun x d => x - delta Cell9.scale (fst d)) draws
      (x_current Cell9.initial)
  /\ snd (run py_exn ZeroDivisionError py_one Cell9.scale draws Cell9.initial)
     = None.
Proof.
  apply (constant_target_random_walk py_exn ZeroDivisionError py_one
           Cell9.scale (PyNum 1) [(0, 0.5); (0.75, 0.25)]).
  - reflexivity.
  - reflexivity.
  - repeat constructor.
Defined.

End MoreWorked.
